(** * capi-config: the [capa] and [capk] manifest filters

    A shallow embedding of [pkg/cmds/config/capa.go] and
    [pkg/cmds/config/capk.go].  Both commands read a multi-document
    manifest from standard input, patch some nested fields depending on
    each document's kind, re-encode every document into a buffer and write
    the buffer to standard output when nothing failed.

    Go values are embedded as follows:
    - a decoded document ([map[string]interface{}]) is a [gmap string Value];
    - [int64] flags are [Z] (they are only compared, never computed with);
    - [error] results are a three-way [Result]: a value, an error, or a
      Go run-time panic;
    - the closure variables a callback mutates are threaded explicitly. *)

From Stdlib Require Import ZArith String List.
From stdpp Require Import base option list strings gmap fin_maps.

Local Open Scope string_scope.
Local Open Scope Z_scope.
Local Open Scope list_scope.

(** ** Decoded documents *)

(** The JSON-like values [k8s.io/apimachinery]'s unstructured objects hold.
    A [float64] is kept as its bit pattern; the commands never look at it. *)
#[warnings="-register-all"]
Inductive Value : Type :=
| VNull
| VBool (b : bool)
| VInt (n : Z)
| VFloat (bits : Z)
| VString (s : string)
| VList (l : list Value)
| VMap (m : gmap string Value).

Abbreviation Obj := (gmap string Value).

Definition is_map (v : Value) : bool :=
  match v with VMap _ => true | _ => false end.

(** ** Errors and results *)

Inductive error : Type :=
| NotAMap (path : list string)
    (* fmt.Errorf("value cannot be set because %v is not a map[string]interface{}", jsonPath(...)) *)
| ErrorsNew (msg : string)      (* errors.New(msg) *)
| DecodeError (msg : string)    (* the YAML/JSON decoder rejected the input *)
| MarshalError (msg : string)   (* yaml.Marshal failed *)
| IOError (msg : string).       (* io.ReadAll or os.Stdout.Write failed *)

Inductive Result (A : Type) : Type :=
| Ok (a : A)
| Err (e : error)
| Panic.
Arguments Ok {A} a.
Arguments Err {A} e.
Arguments Panic {A}.

Definition rbind {A B} (r : Result A) (k : A -> Result B) : Result B :=
  match r with
  | Ok a => k a
  | Err e => Err e
  | Panic => Panic
  end.

Notation "'let?' x := r 'in' k" := (rbind r (fun x => k))
  (at level 10, x name, r at level 100, k at level 200).

Definition is_ok {A} (r : Result A) : bool :=
  match r with Ok _ => true | _ => false end.

(** ** The nested-field writer of [unstructured]

    [setNestedFieldNoCopy] walks [fields[:len(fields)-1]], descending into
    the map found at each key, creating a fresh map where the key is absent
    and failing where the key holds anything that is not a
    [map[string]interface{}]; it then stores [value] under the last key.
    Slicing an empty [fields] panics.  [seen] is the part of the path
    already walked, reported in the error. *)
Fixpoint setNestedFieldNoCopy (seen : list string) (m : Obj) (value : Value)
    (fields : list string) {struct fields} : Result Obj :=
  match fields with
  | [] => Panic
  | field :: rest =>
      match rest with
      | [] => Ok (<[field := value]> m)
      | _ :: _ =>
          match m !! field with
          | Some (VMap valMap) =>
              let? sub := setNestedFieldNoCopy (seen ++ [field]) valMap value rest in
              Ok (<[field := VMap sub]> m)
          | Some _ => Err (NotAMap (seen ++ [field]))
          | None =>
              let? sub := setNestedFieldNoCopy (seen ++ [field]) ∅ value rest in
              Ok (<[field := VMap sub]> m)
          end
      end
  end.

(** [SetNestedField] deep-copies the value first; the copy of a string, an
    [int64] or a map of those is the value itself. *)
Definition SetNestedField (obj : Obj) (value : Value) (fields : list string) : Result Obj :=
  setNestedFieldNoCopy [] obj value fields.

Definition SetNestedMap (obj : Obj) (value : Obj) (fields : list string) : Result Obj :=
  SetNestedField obj (VMap value) fields.

(** [GetKind] reads the string under ["kind"], or [""] when there is none. *)
Definition GetKind (obj : Obj) : string :=
  match obj !! "kind" with
  | Some (VString s) => s
  | _ => ""
  end.

(** ** Closure state

    Both commands hand [parser.ProcessResources] a closure that mutates
    variables of the enclosing function.  [M St A] is a computation over
    those variables: it returns a [Result] together with the variables as
    it left them, also when it fails. *)
Definition M (St A : Type) : Type := St -> Result A * St.

Definition mret {St A} (a : A) : M St A := fun s => (Ok a, s).

Definition mbind {St A B} (c : M St A) (k : A -> M St B) : M St B :=
  fun s =>
    match c s with
    | (Ok a, s') => k a s'
    | (Err e, s') => (Err e, s')
    | (Panic, s') => (Panic, s')
    end.

Definition lift {St A} (r : Result A) : M St A := fun s => (r, s).

Definition modify {St} (f : St -> St) : M St unit := fun s => (Ok tt, f s).

Notation "'let!' x := c 'in' k" := (mbind c (fun x => k))
  (at level 10, x name, c at level 100, k at level 200).
Notation "c ;; k" := (mbind c (fun _ => k))
  (at level 100, k at level 200, right associativity).

(** ** Constants of capa.go *)

Definition awsManagedControlPlane : string := "AWSManagedControlPlane".
Definition awsManagedMachinePool : string := "AWSManagedMachinePool".
Definition machinePool : string := "MachinePool".
Definition cluster : string := "Cluster".
Definition controlplaneRoleAnnotation : string := "eks.amazonaws.com/controlplane-role".

(** The line feed, and the document separator the closures write. *)
Definition LF : string := String (Ascii.ascii_of_nat 10) EmptyString.
Definition separator : string := "---" +:+ LF.

(** ** Mutation rules of capa.go *)

Definition managedCPCIDR (ri : Obj) (vpcCidr : string) : Result Obj :=
  let netcfg : Obj :=
    {[ "vpc" := VMap {[ "cidrBlock" := VString vpcCidr ]} ]} in
  SetNestedMap ri netcfg ["spec"; "network"].

Definition managedCPRole (ri : Obj) (roleName : string) : Result Obj :=
  SetNestedField ri (VString roleName) ["spec"; "roleName"].

Definition managedMPScaling (ri : Obj) (minNodeCount maxNodeCount : Z) : Result Obj :=
  let scaling : Obj :=
    <["minSize" := VInt minNodeCount]> (<["maxSize" := VInt maxNodeCount]> ∅) in
  SetNestedMap ri scaling ["spec"; "scaling"].

Definition managedMPRole (ri : Obj) (roleName : string) : Result Obj :=
  SetNestedField ri (VString roleName) ["spec"; "roleName"].

Definition clusterAnnotations (ri : Obj) (managedControlplaneRole : string) : Result Obj :=
  SetNestedField ri (VString managedControlplaneRole)
    ["metadata"; "annotations"; controlplaneRoleAnnotation].

(** ** Batch validation *)

Record validationHelper : Type := {
  isFound : gmap string bool;
  managedControlplaneRole : string;
  managedMachinepoolRole : string;
  vpcCidr : string;
  minCount : Z;
  maxCount : Z
}.

(** Indexing a Go [map[string]bool] with an absent key gives [false]. *)
Definition wasFound (m : gmap string bool) (k : string) : bool :=
  default false (m !! k).

Definition nonempty (s : string) : bool := negb (String.eqb s "").

(** [validation] returns [nil] ([None]) or the first failing check. *)
Definition validation (helper : validationHelper) : option error :=
  match
    (if negb (wasFound (isFound helper) awsManagedControlPlane) then
       if nonempty (vpcCidr helper) then
         Some (ErrorsNew "failed to get AWSManagedControlPlane for cidr update")
       else if nonempty (managedControlplaneRole helper) then
         Some (ErrorsNew "failed to get AWSManagedControlPlane for role configuration")
       else None
     else None)
  with
  | Some e => Some e
  | None =>
      if minCount helper >? maxCount helper then
        Some (ErrorsNew "max node count can't be less than min node count")
      else if nonempty (managedMachinepoolRole helper)
              && negb (wasFound (isFound helper) awsManagedMachinePool) then
        Some (ErrorsNew "failed to get AWSManagedMachinePool for role configuration")
      else if negb (wasFound (isFound helper) cluster)
              && nonempty (managedControlplaneRole helper) then
        Some (ErrorsNew "failed to get ControlPlane to update annotations")
      else None
  end.

(** ** The rule of capk.go *)

Definition setBootstrapCheckStrategy (ri : Obj) : Result Obj :=
  SetNestedField ri (VString "none")
    ["spec"; "template"; "spec"; "virtualMachineBootstrapCheck"; "checkStrategy"].

(** ** Process input and output

    [io.ReadAll(os.Stdin)] gives the input bytes or an error.  A write to
    standard output either takes the whole buffer, or fails after a prefix
    of it. *)
Record IO : Type := {
  ReadAll : Result string;
  WriteFault : option (nat * error)
}.

Definition Stdout_Write (io : IO) (b : string) : string * Result unit :=
  match WriteFault io with
  | None => (b, Ok tt)
  | Some (n, e) => (substring 0 n b, Err e)
  end.

(** What one execution of [RunE] leaves behind: the returned [error] and
    the bytes that reached standard output. *)
Record Outcome : Type := {
  returned : Result unit;
  stdout : string
}.

Definition failWith (r : Result unit) : Outcome :=
  {| returned := r; stdout := "" |}.

(** The flag variables of [NewCmdCAPA], as cobra sets them before [RunE]. *)
Record Flags : Type := {
  vpc_cidr : string;         (* --vpc-cidr, default "" *)
  managedcp_role : string;   (* --managedcp-role, default "" *)
  managedmp_role : string;   (* --managedmp-role, default "" *)
  min_node_count : Z;        (* --min-node-count, default 1 *)
  max_node_count : Z         (* --max-node-count, default 6 *)
}.

Definition defaultFlags : Flags :=
  {| vpc_cidr := ""; managedcp_role := ""; managedmp_role := "";
     min_node_count := 1; max_node_count := 6 |}.

(** The variables the capa closure writes: [isFound], made once by
    [NewCmdCAPA], and [out], made by each [RunE]. *)
Record capaVars : Type := {
  found : gmap string bool;
  out : string
}.

Definition setFound (kind : string) : M capaVars unit :=
  modify (fun v => {| found := <[kind := true]> (found v); out := out v |}).

(** [if out.Len() > 0 { out.WriteString("---\n") }; out.Write(data)] *)
Definition emit (data : string) (buf : string) : string :=
  (if (0 <? String.length buf)%nat then buf +:+ separator else buf) +:+ data.

Section Pipeline.

(** The collaborators outside this repository and the one function of it
    that is not in the two files.

    [Decode] stands for the decoder loop of [parser.ProcessResources]:
    the objects it hands to the callback, in order, and the error it
    stops with, if any.  [Marshal] is [yaml.Marshal] on an object.
    [SetMPConfiguration] is defined elsewhere in package [config]. *)
Variable Decode : string -> list Obj * option error.
Variable Marshal : Obj -> Result string.
Variable SetMPConfiguration : Obj -> Z -> Z -> Result Obj.

(** [parser.ProcessResources]: call [fn] on each decoded object, stop at
    the first error. *)
Fixpoint eachResource {St} (fn : Obj -> M St unit) (docs : list Obj) : M St unit :=
  match docs with
  | [] => mret tt
  | ri :: rest => (fn ri ;; eachResource fn rest)
  end.

Definition ProcessResources {St} (data : string) (fn : Obj -> M St unit) : M St unit :=
  let '(docs, stop) := Decode data in
  (eachResource fn docs ;;
   match stop with
   | None => mret tt
   | Some e => lift (Err e)
   end).

(** *** capa *)

(** The edits of the capa closure, lines 129-173. *)
Definition capaEdit (fl : Flags) (ri : Obj) : M capaVars Obj :=
  let! ri :=
    (if String.eqb (GetKind ri) awsManagedControlPlane then
       (setFound awsManagedControlPlane ;;
        let! ri :=
          (if nonempty (vpc_cidr fl)
           then lift (managedCPCIDR ri (vpc_cidr fl)) else mret ri) in
        if nonempty (managedcp_role fl)
        then lift (managedCPRole ri (managedcp_role fl)) else mret ri)
     else mret ri) in
  let! ri :=
    (if String.eqb (GetKind ri) machinePool then
       (setFound machinePool ;;
        lift (SetMPConfiguration ri (min_node_count fl) (max_node_count fl)))
     else mret ri) in
  let! ri :=
    (if String.eqb (GetKind ri) awsManagedMachinePool then
       (setFound awsManagedMachinePool ;;
        let! ri := lift (managedMPScaling ri (min_node_count fl) (max_node_count fl)) in
        if nonempty (managedmp_role fl)
        then lift (managedMPRole ri (managedmp_role fl)) else mret ri)
     else mret ri) in
  if String.eqb (GetKind ri) cluster then
    (setFound cluster ;;
     lift (clusterAnnotations ri (managedcp_role fl)))
  else mret ri.

(** The whole closure: edit, marshal, append to [out]. *)
Definition capaFn (fl : Flags) (ri : Obj) : M capaVars unit :=
  let! ri := capaEdit fl ri in
  let! data := lift (Marshal ri) in
  modify (fun v => {| found := found v; out := emit data (out v) |}).

(** [NewCmdCAPA] makes the [isFound] map, empty. *)
Definition NewCmdCAPA : gmap string bool := ∅.

(** [RunE] of the capa command, run on a command whose [isFound] map is
    [isFound0]; it returns the map as it leaves it. *)
Definition capaRunE (fl : Flags) (io : IO) (isFound0 : gmap string bool)
    : Outcome * gmap string bool :=
  match ReadAll io with
  | Ok input =>
      match ProcessResources input (capaFn fl) {| found := isFound0; out := "" |} with
      | (Ok _, v) =>
          match validation {| isFound := found v;
                              managedControlplaneRole := managedcp_role fl;
                              managedMachinepoolRole := managedmp_role fl;
                              vpcCidr := vpc_cidr fl;
                              minCount := min_node_count fl;
                              maxCount := max_node_count fl |} with
          | Some e => (failWith (Err e), found v)
          | None =>
              let '(written, r) := Stdout_Write io (out v) in
              ({| returned := r; stdout := written |}, found v)
          end
      | (Err e, v) => (failWith (Err e), found v)
      | (Panic, v) => (failWith Panic, found v)
      end
  | Err e => (failWith (Err e), isFound0)
  | Panic => (failWith Panic, isFound0)
  end.

(** *** capk *)

Definition capkFn (ri : Obj) : M string unit :=
  let! ri :=
    (if String.eqb (GetKind ri) "KubevirtMachineTemplate"
     then lift (setBootstrapCheckStrategy ri) else mret ri) in
  let! data := lift (Marshal ri) in
  modify (emit data).

Definition capkRunE (io : IO) : Outcome :=
  match ReadAll io with
  | Ok input =>
      match ProcessResources input capkFn "" with
      | (Ok _, buf) =>
          let '(written, r) := Stdout_Write io buf in
          {| returned := r; stdout := written |}
      | (Err e, _) => failWith (Err e)
      | (Panic, _) => failWith Panic
      end
  | Err e => failWith (Err e)
  | Panic => failWith Panic
  end.

End Pipeline.

Arguments eachResource {St} fn docs.
Arguments ProcessResources Decode {St} data fn.

(** ** Vocabulary of the statements *)

(** Reading a path, as [unstructured.NestedFieldNoCopy] does: each key is
    looked up in the map reached so far. *)
Fixpoint getPath (v : Value) (fields : list string) : option Value :=
  match fields with
  | [] => Some v
  | field :: rest =>
      match v with
      | VMap m =>
          match m !! field with
          | Some v' => getPath v' rest
          | None => None
          end
      | _ => None
      end
  end.

(** The closure variables at the start of a run on a command with [isFound]
    map [s]. *)
Definition startVars (s : gmap string bool) : capaVars :=
  {| found := s; out := "" |}.

(** What the capa closure makes of one document's content, and what the
    capk closure does. *)
Definition capaContent (SetMPConfiguration : Obj -> Z -> Z -> Result Obj)
    (fl : Flags) (ri : Obj) : Result Obj :=
  fst (capaEdit SetMPConfiguration fl ri (startVars ∅)).

Definition capkContent (ri : Obj) : Result Obj :=
  if String.eqb (GetKind ri) "KubevirtMachineTemplate"
  then setBootstrapCheckStrategy ri else Ok ri.

(** Re-encoding a stream without touching it: every document marshalled
    as decoded and appended to the buffer. *)
Fixpoint reencode (Marshal : Obj -> Result string) (docs : list Obj) (buf : string)
    : Result string :=
  match docs with
  | [] => Ok buf
  | ri :: rest => let? data := Marshal ri in reencode Marshal rest (emit data buf)
  end.

(** Handing a buffer, or the failure to build one, to standard output. *)
Definition deliver (io : IO) (r : Result string) : Outcome :=
  match r with
  | Ok buf => let '(written, r) := Stdout_Write io buf in
              {| returned := r; stdout := written |}
  | Err e => failWith (Err e)
  | Panic => failWith Panic
  end.

(** A run that failed and wrote nothing. *)
Definition failedSilently (o : Outcome) : Prop :=
  is_ok (returned o) = false ∧ stdout o = "".

(** [encoded edit Marshal ri enc]: [enc] is the encoding of [ri] as edited. *)
Definition encoded (edit : Obj -> Result Obj) (Marshal : Obj -> Result string)
    (ri : Obj) (enc : string) : Prop :=
  ∃ ri', edit ri = Ok ri' ∧ Marshal ri' = Ok enc.

(** A message names a kind when the kind occurs in it. *)
Definition names (e : error) (kind : string) : bool :=
  match e with
  | ErrorsNew msg => bool_decide (is_Some (String.index 0 kind msg))
  | _ => false
  end.

(** The pipeline both closures implement, written as a function of the
    decoded stream: edit, marshal and append each document in turn, and
    stop at the first failure. *)
Fixpoint render (edit : Obj -> Result Obj) (Marshal : Obj -> Result string)
    (docs : list Obj) (buf : string) : Result string :=
  match docs with
  | [] => Ok buf
  | ri :: rest =>
      let? ri' := edit ri in
      let? data := Marshal ri' in
      render edit Marshal rest (emit data buf)
  end.

Definition unitOf {A} (r : Result A) : Result unit :=
  let? _ := r in Ok tt.

(** The kinds the capa closure records while it edits one document, and
    while it goes through a stream (up to the first failure). *)
Definition capaMarks (SetMPConfiguration : Obj -> Z -> Z -> Result Obj)
    (fl : Flags) (ri : Obj) : gmap string bool :=
  found (snd (capaEdit SetMPConfiguration fl ri (startVars ∅))).

Fixpoint capaSeen (Marshal : Obj -> Result string)
    (SetMPConfiguration : Obj -> Z -> Z -> Result Obj)
    (fl : Flags) (docs : list Obj) : gmap string bool :=
  match docs with
  | [] => ∅
  | ri :: rest =>
      match (let? ri' := capaContent SetMPConfiguration fl ri in Marshal ri') with
      | Ok _ => capaSeen Marshal SetMPConfiguration fl rest
                  ∪ capaMarks SetMPConfiguration fl ri
      | _ => capaMarks SetMPConfiguration fl ri
      end
  end.

(** A computation whose result does not depend on the closure variables,
    that adds the keys of [K] to [isFound] and rewrites [out] by [g]. *)
Definition runsAs {A} (c : M capaVars A) (r : Result A) (K : gmap string bool)
    (g : string -> string) : Prop :=
  ∀ v, c v = (r, {| found := K ∪ found v; out := g (out v) |}).

(** The helper [RunE] hands to [validation]. *)
Definition helperOf (fl : Flags) (isFound : gmap string bool) : validationHelper :=
  {| isFound := isFound;
     managedControlplaneRole := managedcp_role fl;
     managedMachinepoolRole := managedmp_role fl;
     vpcCidr := vpc_cidr fl;
     minCount := min_node_count fl;
     maxCount := max_node_count fl |}.

(** The rules of the two AWS kinds, in the order the capa closure applies
    them. *)
Definition cpRules (fl : Flags) (ri : Obj) : Result Obj :=
  let? ri := (if nonempty (vpc_cidr fl)
              then managedCPCIDR ri (vpc_cidr fl) else Ok ri) in
  if nonempty (managedcp_role fl)
  then managedCPRole ri (managedcp_role fl) else Ok ri.

Definition mpRules (fl : Flags) (ri : Obj) : Result Obj :=
  let? ri := managedMPScaling ri (min_node_count fl) (max_node_count fl) in
  if nonempty (managedmp_role fl)
  then managedMPRole ri (managedmp_role fl) else Ok ri.

(** The buffer after the encodings [encs] were appended in turn. *)
Definition joinDocs (encs : list string) : string :=
  foldl (fun buf enc => emit enc buf) "" encs.

(** [blocked ri path]: on the way to its last key, [path] meets a key of
    [ri] that holds something other than a map; [upto] is the path up to
    and including that key. *)
Definition blocked (ri : Obj) (path upto : list string) : Prop :=
  ∃ rest v, path = upto ++ rest ∧ upto ≠ [] ∧ rest ≠ [] ∧
            getPath (VMap ri) upto = Some v ∧ is_map v = false.

(** The paths the closures write in a document, by kind and flags.  The
    [MachinePool] kind is left to [SetMPConfiguration]. *)
Definition capaTargets (fl : Flags) (ri : Obj) : list (list string) :=
  if String.eqb (GetKind ri) awsManagedControlPlane then
    (if nonempty (vpc_cidr fl) then [["spec"; "network"]] else [])
    ++ (if nonempty (managedcp_role fl) then [["spec"; "roleName"]] else [])
  else if String.eqb (GetKind ri) awsManagedMachinePool then
    ["spec"; "scaling"]
    :: (if nonempty (managedmp_role fl) then [["spec"; "roleName"]] else [])
  else if String.eqb (GetKind ri) cluster then
    [["metadata"; "annotations"; controlplaneRoleAnnotation]]
  else [].

Definition capkTargets (ri : Obj) : list (list string) :=
  if String.eqb (GetKind ri) "KubevirtMachineTemplate" then
    [["spec"; "template"; "spec"; "virtualMachineBootstrapCheck"; "checkStrategy"]]
  else [].

(** No document of the stream has kind [kind]. *)
Definition absent (kind : string) (docs : list Obj) : Prop :=
  Forall (fun ri => GetKind ri ≠ kind) docs.

(** [SetMPConfiguration] leaves the kind of a document alone. *)
Definition keepsKind (SetMPConfiguration : Obj -> Z -> Z -> Result Obj) : Prop :=
  ∀ ri lo hi ri', SetMPConfiguration ri lo hi = Ok ri' → GetKind ri' = GetKind ri.

(** A key under which a write can descend: absent, or holding a map. *)
Definition traversable (obj : Obj) (key : string) : bool :=
  match obj !! key with
  | Some v => is_map v
  | None => true
  end.

(** ** The function missing from the sources *)

(** Modelled from the spec: [SetMPConfiguration] is called by capa.go on
    every [MachinePool] document with the two bounds, and is defined in a
    file of package [config] that is not among the sources.  Section 8 of
    the specification: the [MachinePool] document "gains a scaling
    sub-structure {min:2, max:5}". *)
Definition SetMPConfiguration_spec (ri : Obj) (minNodeCount maxNodeCount : Z) : Result Obj :=
  Ok (<["scaling" := VMap (<["min" := VInt minNodeCount]> (<["max" := VInt maxNodeCount]> ∅))]> ri).

(** ** Sample documents and stand-in collaborators for the examples *)

Definition doc (kind : string) : Obj := {[ "kind" := VString kind ]}.

(** A decoder given by a table from input texts to decoded streams; any
    other input is a decoding error. *)
Fixpoint tableDecode (table : list (string * list Obj)) (input : string)
    : list Obj * option error :=
  match table with
  | [] => ([], Some (DecodeError "unexpected input"))
  | (text, docs) :: rest =>
      if String.eqb input text then (docs, None) else tableDecode rest input
  end.

(** An encoder that prints the kind line only. *)
Definition kindMarshal (ri : Obj) : Result string :=
  Ok ("kind: " +:+ GetKind ri +:+ LF).

Definition stdinOf (input : string) : IO :=
  {| ReadAll := Ok input; WriteFault := None |}.

(** The scenario of section 8: bounds 2 and 5, no role. *)
Definition scenarioFlags : Flags :=
  {| vpc_cidr := ""; managedcp_role := ""; managedmp_role := "";
     min_node_count := 2; max_node_count := 5 |}.

Definition cidrFlags : Flags :=
  {| vpc_cidr := "10.0.0.0/16"; managedcp_role := ""; managedmp_role := "";
     min_node_count := 1; max_node_count := 6 |}.

Definition swappedBounds : Flags :=
  {| vpc_cidr := ""; managedcp_role := ""; managedmp_role := "";
     min_node_count := 6; max_node_count := 1 |}.

(** A control plane whose [spec.network] already has content. *)
Definition controlPlaneDoc : Obj :=
  <["spec" := VMap (<["version" := VString "v1.29"]>
                    {[ "network" := VMap (<["cni" := VMap {[ "cniIngressRules" := VList [] ]}]>
                                          {[ "vpc" := VMap {[ "id" := VString "vpc-0a1b" ]} ]}) ]})]>
    (doc awsManagedControlPlane).

Definition machinePoolDoc : Obj :=
  <["spec" := VMap {[ "scaling" := VMap (<["minSize" := VInt 3]>
                                          {[ "desiredSize" := VInt 4 ]}) ]}]>
    (doc awsManagedMachinePool).

(** Documents in which a scalar sits on the path of a rule. *)
Definition clusterScalarMetadata : Obj :=
  <["metadata" := VString "production"]> (doc cluster).

Definition templateScalar : Obj :=
  <["spec" := VMap {[ "template" := VString "small" ]}]> (doc "KubevirtMachineTemplate").

(** Input texts and the streams they decode to. *)
Definition bundles : list (string * list Obj) :=
  [ ("control-plane.yaml", [doc awsManagedControlPlane; doc "Service"]);
    ("cluster.yaml", [doc cluster]);
    ("pools.yaml", [doc machinePool; doc cluster]);
    ("broken-cluster.yaml", [doc "Service"; clusterScalarMetadata]);
    ("broken-template.yaml", [templateScalar]) ].

(** The two commands over the stand-ins. *)
Definition capaOn (fl : Flags) (input : string) (isFound0 : gmap string bool)
    : Outcome * gmap string bool :=
  capaRunE (tableDecode bundles) kindMarshal SetMPConfiguration_spec
    fl (stdinOf input) isFound0.

Definition capkOn (input : string) : Outcome :=
  capkRunE (tableDecode bundles) kindMarshal (stdinOf input).

Definition roleAndSwappedBounds : Flags :=
  {| vpc_cidr := ""; managedcp_role := ""; managedmp_role := "eks-nodes";
     min_node_count := 6; max_node_count := 1 |}.

Definition cidrAndPoolRole : Flags :=
  {| vpc_cidr := "10.0.0.0/16"; managedcp_role := ""; managedmp_role := "eks-nodes";
     min_node_count := 1; max_node_count := 6 |}.

(** Decoding went through and every document was edited and encoded. *)
Definition routed (edit : Obj -> Result Obj) (Marshal : Obj -> Result string)
    (docs : list Obj) (stop : option error) : Prop :=
  stop = None ∧ is_ok (render edit Marshal docs "") = true.

Definition poolRoleOnly : Flags :=
  {| vpc_cidr := ""; managedcp_role := ""; managedmp_role := "eks-nodes";
     min_node_count := 1; max_node_count := 6 |}.

Definition controlPlaneRoleOnly : Flags :=
  {| vpc_cidr := ""; managedcp_role := "eks-controlplane"; managedmp_role := "";
     min_node_count := 1; max_node_count := 6 |}.

(** ** Vocabulary of the further properties *)

(** Two paths diverge when they differ at some key before either ends;
    then neither leads into the subtree of the other. *)
Fixpoint diverges (p q : list string) : bool :=
  match p, q with
  | a :: p', b :: q' => if String.eqb a b then diverges p' q' else true
  | _, _ => false
  end.

(** The rule table of the capa closure with the values written: the paths
    of [capaTargets], each with what the rule stores there. *)
Definition capaWrites (fl : Flags) (ri : Obj) : list (list string * Value) :=
  if String.eqb (GetKind ri) awsManagedControlPlane then
    (if nonempty (vpc_cidr fl)
     then [(["spec"; "network"],
            VMap {[ "vpc" := VMap {[ "cidrBlock" := VString (vpc_cidr fl) ]} ]})]
     else [])
    ++ (if nonempty (managedcp_role fl)
        then [(["spec"; "roleName"], VString (managedcp_role fl))] else [])
  else if String.eqb (GetKind ri) awsManagedMachinePool then
    (["spec"; "scaling"],
     VMap (<["minSize" := VInt (min_node_count fl)]>
             (<["maxSize" := VInt (max_node_count fl)]> ∅)))
    :: (if nonempty (managedmp_role fl)
        then [(["spec"; "roleName"], VString (managedmp_role fl))] else [])
  else if String.eqb (GetKind ri) cluster then
    [(["metadata"; "annotations"; controlplaneRoleAnnotation],
      VString (managedcp_role fl))]
  else [].

(** The path of the capk rule. *)
Definition checkStrategyPath : list string :=
  ["spec"; "template"; "spec"; "virtualMachineBootstrapCheck"; "checkStrategy"].

(** The kinds the capa closure records in [isFound]. *)
Definition tracked (kind : string) : bool :=
  String.eqb kind awsManagedControlPlane || String.eqb kind machinePool
  || String.eqb kind awsManagedMachinePool || String.eqb kind cluster.

(** Some document of the stream has kind [kind]. *)
Definition hasKind (kind : string) (docs : list Obj) : bool :=
  existsb (fun ri => String.eqb (GetKind ri) kind) docs.

(** A document goes through the closure: it is edited and encoded. *)
Definition passes (edit : Obj -> Result Obj) (Marshal : Obj -> Result string)
    (ri : Obj) : bool :=
  is_ok (let? ri' := edit ri in Marshal ri').

(** What [validation] asks of the flags and of the kinds found. *)
Definition requirementsMet (h : validationHelper) : Prop :=
  (wasFound (isFound h) awsManagedControlPlane = true
   ∨ (vpcCidr h = "" ∧ managedControlplaneRole h = ""))
  ∧ minCount h ≤ maxCount h
  ∧ (managedMachinepoolRole h = "" ∨ wasFound (isFound h) awsManagedMachinePool = true)
  ∧ (managedControlplaneRole h = "" ∨ wasFound (isFound h) cluster = true).

Definition capkWrites (ri : Obj) : list (list string * Value) :=
  if String.eqb (GetKind ri) "KubevirtMachineTemplate"
  then [(checkStrategyPath, VString "none")] else [].

(** A rule table applied to a document: one nested-field write after the
    other, stopping at the first that fails. *)
Fixpoint applyWrites (ws : list (list string * Value)) (ri : Obj) : Result Obj :=
  match ws with
  | [] => Ok ri
  | (path, value) :: rest =>
      let? ri := SetNestedField ri value path in applyWrites rest ri
  end.

(** The paths of a table diverge from one another. *)
Fixpoint apart (paths : list (list string)) : bool :=
  match paths with
  | [] => true
  | p :: rest => forallb (fun q => diverges p q && diverges q p) rest && apart rest
  end.

(** The documents the closure gets to: all of them up to and including
    the first that is not edited or not encoded. *)
Fixpoint processed (edit : Obj -> Result Obj) (Marshal : Obj -> Result string)
    (docs : list Obj) : list Obj :=
  match docs with
  | [] => []
  | ri :: rest =>
      if passes edit Marshal ri then ri :: processed edit Marshal rest else [ri]
  end.

(** What [validation] asks of a stream handed to a fresh command. *)
Definition kindsPresent (fl : Flags) (docs : list Obj) : Prop :=
  (hasKind awsManagedControlPlane docs = true
   ∨ (vpc_cidr fl = "" ∧ managedcp_role fl = ""))
  ∧ min_node_count fl ≤ max_node_count fl
  ∧ (managedmp_role fl = "" ∨ hasKind awsManagedMachinePool docs = true)
  ∧ (managedcp_role fl = "" ∨ hasKind cluster docs = true).

(** ** Sample data of the further properties *)

(** The document of a result, for results known to be [Ok]. *)
Definition unwrap (r : Result Obj) : Obj :=
  match r with Ok ri => ri | _ => ∅ end.

Definition cidrAndControlPlaneRole : Flags :=
  {| vpc_cidr := "10.0.0.0/16"; managedcp_role := "eks-controlplane";
     managedmp_role := ""; min_node_count := 1; max_node_count := 6 |}.

(** A cluster that already carries a name and an annotation. *)
Definition annotatedCluster : Obj :=
  <["metadata" := VMap (<["name" := VString "demo"]>
                        {[ "annotations" := VMap {[ "team" := VString "infra" ]} ]})]>
    (doc cluster).

(** A machine template with a check strategy and a sibling field. *)
Definition templateDoc : Obj :=
  <["spec" :=
      VMap {[ "template" :=
        VMap {[ "spec" :=
          VMap (<["virtualMachineBootstrapCheck" :=
                    VMap {[ "checkStrategy" := VString "ssh" ]}]>
                {[ "virtualMachineTemplate" := VMap ∅ ]}) ]} ]}]>
    (doc "KubevirtMachineTemplate").

Definition editedControlPlane : Obj :=
  unwrap (capaContent SetMPConfiguration_spec cidrAndControlPlaneRole controlPlaneDoc).

Definition editedCluster : Obj :=
  unwrap (capaContent SetMPConfiguration_spec controlPlaneRoleOnly annotatedCluster).

Definition editedTemplate : Obj := unwrap (capkContent templateDoc).

(** Streams with the same documents in two orders, and the empty stream. *)
Definition moreBundles : list (string * list Obj) :=
  [ ("eks.yaml", [doc awsManagedControlPlane; doc "Service"; doc cluster]);
    ("eks-reordered.yaml", [doc cluster; doc awsManagedControlPlane; doc "Service"]);
    ("empty.yaml", []);
    ("broken-cluster.yaml", [doc "Service"; clusterScalarMetadata; doc awsManagedControlPlane]);
    ("broken-template.yaml", [doc "Service"; templateScalar; templateDoc]) ].

Definition capaOver (fl : Flags) (input : string) (isFound0 : gmap string bool)
    : Outcome * gmap string bool :=
  capaRunE (tableDecode moreBundles) kindMarshal SetMPConfiguration_spec
    fl (stdinOf input) isFound0.

Definition capkOver (input : string) : Outcome :=
  capkRunE (tableDecode moreBundles) kindMarshal (stdinOf input).

(** * Properties *)

(** ** The nested-field writer *)

Section Editor.

Implicit Types (m obj : Obj) (v value : Value) (fields seen : list string).

Lemma setNested_last seen m value field :
  setNestedFieldNoCopy seen m value [field] = Ok (<[field := value]> m).
Proof. reflexivity. Qed.

Lemma setNested_step seen m value field next rest :
  setNestedFieldNoCopy seen m value (field :: next :: rest) =
  match m !! field with
  | Some (VMap valMap) =>
      let? sub := setNestedFieldNoCopy (seen ++ [field]) valMap value (next :: rest) in
      Ok (<[field := VMap sub]> m)
  | Some _ => Err (NotAMap (seen ++ [field]))
  | None =>
      let? sub := setNestedFieldNoCopy (seen ++ [field]) ∅ value (next :: rest) in
      Ok (<[field := VMap sub]> m)
  end.
Proof. reflexivity. Qed.

(** Only the empty path panics. *)
Lemma setNested_no_panic fields :
  fields ≠ [] → ∀ seen m value, setNestedFieldNoCopy seen m value fields ≠ Panic.
Proof.
  induction fields as [|field rest IH]; [done|].
  intros _ seen m value. destruct rest as [|next rest].
  - by rewrite setNested_last.
  - rewrite setNested_step.
    destruct (m !! field) as [[]|] eqn:Hm; try done;
      match goal with
      | |- context [setNestedFieldNoCopy ?s ?m' ?v ?f] =>
          specialize (IH ltac:(done) s m' v);
          destruct (setNestedFieldNoCopy s m' v f); done
      end.
Qed.

(** A write touches the first key of its path and no other key. *)
Lemma setNested_frame seen m value field rest m' key :
  setNestedFieldNoCopy seen m value (field :: rest) = Ok m' →
  key ≠ field → m' !! key = m !! key.
Proof.
  intros Hset Hne. destruct rest as [|next rest].
  - rewrite setNested_last in Hset. injection Hset as <-.
    by rewrite lookup_insert_ne.
  - rewrite setNested_step in Hset.
    destruct (m !! field) as [[]|]; try done;
      match type of Hset with
      | context [setNestedFieldNoCopy ?s ?m0 ?v ?f] =>
          destruct (setNestedFieldNoCopy s m0 v f); try done
      end;
      injection Hset as <-; by rewrite lookup_insert_ne.
Qed.

Lemma SetNestedField_kind obj value field rest obj' :
  SetNestedField obj value (field :: rest) = Ok obj' →
  field ≠ "kind" → GetKind obj' = GetKind obj.
Proof.
  intros Hset Hne. unfold GetKind.
  by rewrite (setNested_frame _ _ _ _ _ _ "kind" Hset).
Qed.

(** A path of two keys, written out. *)
Lemma SetNestedField_two obj value a b :
  SetNestedField obj value [a; b] =
  match obj !! a with
  | Some (VMap sub) => Ok (<[a := VMap (<[b := value]> sub)]> obj)
  | Some _ => Err (NotAMap [a])
  | None => Ok (<[a := VMap {[ b := value ]}]> obj)
  end.
Proof.
  unfold SetNestedField. rewrite setNested_step.
  destruct (obj !! a) as [[]|]; try done.
Qed.

(** The walk stops with an error at the first key that holds something
    other than a map. *)
Lemma setNested_not_traversable prefix :
  prefix ≠ [] →
  ∀ seen m value rest v,
    rest ≠ [] →
    getPath (VMap m) prefix = Some v →
    is_map v = false →
    setNestedFieldNoCopy seen m value (prefix ++ rest) = Err (NotAMap (seen ++ prefix)).
Proof.
  induction prefix as [|field prefix IH]; [done|].
  intros _ seen m value rest v Hrest Hget Hv.
  destruct rest as [|r rest]; [done|].
  simpl in Hget. destruct (m !! field) as [v1|] eqn:Hm; [|done].
  destruct prefix as [|next prefix].
  - simpl in Hget. injection Hget as ->.
    simpl app. rewrite setNested_step, Hm. by destruct v.
  - change ((field :: next :: prefix) ++ r :: rest)
      with (field :: next :: (prefix ++ r :: rest)).
    rewrite setNested_step, Hm.
    destruct v1 as [| | | | | |sub]; try done.
    change (next :: prefix ++ r :: rest) with ((next :: prefix) ++ r :: rest).
    rewrite (IH ltac:(done) (seen ++ [field]) sub value (r :: rest) v); try done.
    simpl. by rewrite <- app_assoc.
Qed.

(** Reading back after a write through a path of two keys. *)
Lemma write_two_read obj value a b obj' :
  SetNestedField obj value [a; b] = Ok obj' →
  getPath (VMap obj') [a; b] = Some value.
Proof.
  rewrite SetNestedField_two.
  destruct (obj !! a) as [[]|]; try done; intros [= <-]; simpl;
    by rewrite lookup_insert_eq, ?lookup_insert_eq, ?lookup_singleton_eq.
Qed.

Lemma write_two_frame obj value a b obj' c :
  SetNestedField obj value [a; b] = Ok obj' → c ≠ b →
  getPath (VMap obj') [a; c] = getPath (VMap obj) [a; c].
Proof.
  rewrite SetNestedField_two. intros Hset Hne.
  destruct (obj !! a) as [[]|] eqn:Ha; try done; injection Hset as <-; simpl;
    rewrite lookup_insert_eq, Ha.
  - by rewrite lookup_insert_ne.
  - by rewrite lookup_singleton_ne.
Qed.

Lemma write_two_ok obj value a b :
  is_ok (SetNestedField obj value [a; b]) = traversable obj a.
Proof.
  rewrite SetNestedField_two. unfold traversable.
  by destruct (obj !! a) as [[]|].
Qed.

Lemma write_two_traversable obj value a b obj' :
  SetNestedField obj value [a; b] = Ok obj' → traversable obj' a = true.
Proof.
  rewrite SetNestedField_two. unfold traversable.
  destruct (obj !! a) as [[]|]; try done; intros [= <-]; by rewrite lookup_insert_eq.
Qed.

Lemma getPath_app v prefix rest :
  getPath v (prefix ++ rest) = getPath v prefix ≫= fun v' => getPath v' rest.
Proof.
  revert v. induction prefix as [|field prefix IH]; intros v; simpl; [done|].
  destruct v as [| | | | | |m]; try done.
  destruct (m !! field); [apply IH|done].
Qed.

End Editor.

(** ** Closure computations *)

Section Closure.

Lemma runsAs_ret {A} (a : A) : runsAs (mret a) (Ok a) ∅ id.
Proof. intros [s o]. unfold mret. simpl. by rewrite (left_id_L ∅ (∪)). Qed.

Lemma runsAs_lift {A} (r : Result A) : runsAs (lift r) r ∅ id.
Proof. intros [s o]. unfold lift. simpl. by rewrite (left_id_L ∅ (∪)). Qed.

Lemma runsAs_setFound kind : runsAs (setFound kind) (Ok tt) {[ kind := true ]} id.
Proof.
  intros [s o]. unfold setFound, modify. simpl.
  by rewrite insert_union_singleton_l.
Qed.

Lemma runsAs_bind_ok {A B} (c : M capaVars A) (k : A -> M capaVars B) a K1 g1 r K2 g2 :
  runsAs c (Ok a) K1 g1 → runsAs (k a) r K2 g2 →
  runsAs (mbind c k) r (K2 ∪ K1) (g2 ∘ g1).
Proof.
  intros Hc Hk v. unfold mbind. rewrite Hc, Hk. simpl.
  by rewrite (assoc_L (∪)).
Qed.

Lemma runsAs_bind_err {A B} (c : M capaVars A) (k : A -> M capaVars B) e K g :
  runsAs c (Err e) K g → runsAs (mbind c k) (Err e) K g.
Proof. intros Hc v. unfold mbind. by rewrite Hc. Qed.

Lemma runsAs_bind_panic {A B} (c : M capaVars A) (k : A -> M capaVars B) K g :
  runsAs c Panic K g → runsAs (mbind c k) Panic K g.
Proof. intros Hc v. unfold mbind. by rewrite Hc. Qed.

(** Computations that leave [out] alone are closed under sequencing. *)
Lemma quiet_bind {A B} (c : M capaVars A) (k : A -> M capaVars B) :
  (∃ r K, runsAs c r K id) →
  (∀ a, ∃ r K, runsAs (k a) r K id) →
  ∃ r K, runsAs (mbind c k) r K id.
Proof.
  intros (r & K & Hc) Hk. destruct r as [a|e|].
  - destruct (Hk a) as (r2 & K2 & Hka).
    exists r2, (K2 ∪ K). apply (runsAs_bind_ok _ _ _ _ _ _ _ _ Hc Hka).
  - exists (Err e), K. by apply runsAs_bind_err.
  - exists Panic, K. by apply runsAs_bind_panic.
Qed.

End Closure.

(** Case analysis on membership in a list written out. *)
Ltac among H :=
  simpl in H;
  repeat match type of H with
         | _ ∈ [] => by apply elem_of_nil in H
         | _ ∈ _ :: _ => apply elem_of_cons in H as [H|H]
         end.

Ltac quiet :=
  lazymatch goal with
  | |- ∃ r K, runsAs (mbind _ _) r K id =>
      apply quiet_bind; [quiet | intros ?; quiet]
  | |- ∃ r K, runsAs (if ?b then _ else _) r K id => destruct b; quiet
  | |- ∃ r K, runsAs (mret _) r K id => eexists _, _; apply runsAs_ret
  | |- ∃ r K, runsAs (lift _) r K id => eexists _, _; apply runsAs_lift
  | |- ∃ r K, runsAs (setFound _) r K id => eexists _, _; apply runsAs_setFound
  end.

(** ** The capa closure, document by document *)

Section CapaEdit.

Variable SetMPConfiguration : Obj -> Z -> Z -> Result Obj.
Variable fl : Flags.

Local Abbreviation edit := (capaEdit SetMPConfiguration fl).
Local Abbreviation content := (capaContent SetMPConfiguration fl).
Local Abbreviation marks := (capaMarks SetMPConfiguration fl).

Lemma capaEdit_quiet ri : ∃ r K, runsAs (edit ri) r K id.
Proof. unfold capaEdit. quiet. Qed.

(** The edits do not read the closure variables; they only add to
    [isFound]. *)
Lemma capaEdit_run ri v :
  edit ri v = (content ri, {| found := marks ri ∪ found v; out := out v |}).
Proof.
  destruct (capaEdit_quiet ri) as (r & K & Hrun).
  unfold capaContent, capaMarks.
  rewrite !Hrun. simpl. by rewrite (right_id_L ∅ (∪)).
Qed.

Lemma cpRules_kind ri ri' : cpRules fl ri = Ok ri' → GetKind ri' = GetKind ri.
Proof.
  unfold cpRules, managedCPCIDR, managedCPRole, SetNestedMap.
  destruct (nonempty (vpc_cidr fl)); simpl.
  - destruct (SetNestedField ri _ _) as [ri1| |] eqn:H1; simpl; [|done..].
    apply SetNestedField_kind in H1; [|done].
    destruct (nonempty (managedcp_role fl)).
    + intros H2. apply SetNestedField_kind in H2; [|done]. congruence.
    + intros [= <-]. done.
  - destruct (nonempty (managedcp_role fl)).
    + intros H2. by apply SetNestedField_kind in H2.
    + by intros [= <-].
Qed.

Lemma mpRules_kind ri ri' : mpRules fl ri = Ok ri' → GetKind ri' = GetKind ri.
Proof.
  unfold mpRules, managedMPScaling, managedMPRole, SetNestedMap.
  destruct (SetNestedField ri _ _) as [ri1| |] eqn:H1; simpl; [|done..].
  apply SetNestedField_kind in H1; [|done].
  destruct (nonempty (managedmp_role fl)).
  - intros H2. apply SetNestedField_kind in H2; [|done]. congruence.
  - intros [= <-]. done.
Qed.

Lemma kind_eqb (ri : Obj) kind :
  GetKind ri = kind → String.eqb (GetKind ri) kind = true.
Proof. intros ->. apply String.eqb_refl. Qed.

Lemma kind_neqb (ri : Obj) kind :
  GetKind ri ≠ kind → String.eqb (GetKind ri) kind = false.
Proof. by intros ?%String.eqb_neq. Qed.

Lemma capaEdit_controlPlane ri v :
  GetKind ri = awsManagedControlPlane →
  edit ri v =
  (cpRules fl ri,
   {| found := <[awsManagedControlPlane := true]> (found v); out := out v |}).
Proof.
  intros Hk. pose proof (cpRules_kind ri) as Hkeep.
  unfold capaEdit, cpRules in *. unfold mbind at 3.
  rewrite (kind_eqb _ _ Hk).
  unfold mbind, setFound, modify, lift, mret. simpl.
  destruct (nonempty (vpc_cidr fl)).
  - destruct (managedCPCIDR ri (vpc_cidr fl)) as [ri1| |]; simpl in *; [|done..].
    destruct (nonempty (managedcp_role fl)).
    + destruct (managedCPRole ri1 _) as [ri2| |]; simpl; [|done..].
      rewrite !kind_neqb; [done|rewrite (Hkeep ri2 eq_refl), Hk; done..].
    + rewrite !kind_neqb; [done|rewrite (Hkeep ri1 eq_refl), Hk; done..].
  - simpl in *. destruct (nonempty (managedcp_role fl)).
    + destruct (managedCPRole ri _) as [ri2| |]; simpl; [|done..].
      rewrite !kind_neqb; [done|rewrite (Hkeep ri2 eq_refl), Hk; done..].
    + rewrite !kind_neqb; [done|rewrite Hk; done..].
Qed.

Lemma capaEdit_machinePool ri v :
  (∀ ri' , SetMPConfiguration ri (min_node_count fl) (max_node_count fl) = Ok ri' →
           GetKind ri' = GetKind ri) →
  GetKind ri = machinePool →
  edit ri v =
  (SetMPConfiguration ri (min_node_count fl) (max_node_count fl),
   {| found := <[machinePool := true]> (found v); out := out v |}).
Proof.
  intros Hkeep Hk. unfold capaEdit.
  unfold mbind, setFound, modify, lift, mret.
  rewrite (kind_neqb ri awsManagedControlPlane) by (by rewrite Hk).
  rewrite (kind_eqb _ _ Hk). simpl.
  destruct (SetMPConfiguration ri _ _) as [ri1| |]; simpl; [|done..].
  rewrite !kind_neqb; [done|rewrite (Hkeep ri1 eq_refl), Hk; done..].
Qed.

Lemma capaEdit_managedMachinePool ri v :
  GetKind ri = awsManagedMachinePool →
  edit ri v =
  (mpRules fl ri,
   {| found := <[awsManagedMachinePool := true]> (found v); out := out v |}).
Proof.
  intros Hk. pose proof (mpRules_kind ri) as Hkeep.
  unfold capaEdit, mpRules in *.
  unfold mbind, setFound, modify, lift, mret.
  rewrite (kind_neqb ri awsManagedControlPlane) by (by rewrite Hk).
  rewrite (kind_neqb ri machinePool) by (by rewrite Hk).
  rewrite (kind_eqb _ _ Hk). simpl.
  destruct (managedMPScaling ri _ _) as [ri1| |]; simpl in *; [|done..].
  destruct (nonempty (managedmp_role fl)).
  - destruct (managedMPRole ri1 _) as [ri2| |]; simpl; [|done..].
    rewrite !kind_neqb; [done|rewrite (Hkeep ri2 eq_refl), Hk; done..].
  - rewrite !kind_neqb; [done|rewrite (Hkeep ri1 eq_refl), Hk; done..].
Qed.

Lemma capaEdit_cluster ri v :
  GetKind ri = cluster →
  edit ri v =
  (clusterAnnotations ri (managedcp_role fl),
   {| found := <[cluster := true]> (found v); out := out v |}).
Proof.
  intros Hk. unfold capaEdit.
  unfold mbind, setFound, modify, lift, mret.
  rewrite (kind_neqb ri awsManagedControlPlane) by (by rewrite Hk).
  rewrite (kind_neqb ri machinePool) by (by rewrite Hk).
  rewrite (kind_neqb ri awsManagedMachinePool) by (by rewrite Hk).
  by rewrite (kind_eqb _ _ Hk).
Qed.

Lemma capaEdit_other ri v :
  GetKind ri ≠ awsManagedControlPlane → GetKind ri ≠ machinePool →
  GetKind ri ≠ awsManagedMachinePool → GetKind ri ≠ cluster →
  edit ri v = (Ok ri, v).
Proof.
  intros H1 H2 H3 H4. unfold capaEdit. unfold mbind, mret.
  rewrite !kind_neqb by done. by destruct v.
Qed.

Lemma content_controlPlane ri :
  GetKind ri = awsManagedControlPlane → content ri = cpRules fl ri.
Proof.
  intros Hk. unfold capaContent. by rewrite (capaEdit_controlPlane _ _ Hk).
Qed.

Lemma content_managedMachinePool ri :
  GetKind ri = awsManagedMachinePool → content ri = mpRules fl ri.
Proof.
  intros Hk. unfold capaContent. by rewrite (capaEdit_managedMachinePool _ _ Hk).
Qed.

Lemma content_cluster ri :
  GetKind ri = cluster → content ri = clusterAnnotations ri (managedcp_role fl).
Proof.
  intros Hk. unfold capaContent. by rewrite (capaEdit_cluster _ _ Hk).
Qed.

Lemma content_other ri :
  GetKind ri ≠ awsManagedControlPlane → GetKind ri ≠ machinePool →
  GetKind ri ≠ awsManagedMachinePool → GetKind ri ≠ cluster →
  content ri = Ok ri.
Proof.
  intros H1 H2 H3 H4. unfold capaContent. by rewrite capaEdit_other.
Qed.

(** A blocked path of two keys is blocked at its first key. *)
Lemma blocked_two ri a b upto :
  blocked ri [a; b] upto →
  upto = [a] ∧ ∃ v, ri !! a = Some v ∧ is_map v = false.
Proof.
  intros (rest & v & Hpath & Hupto & Hrest & Hget & Hv).
  destruct upto as [|x [|y upto]]; [done| |].
  - injection Hpath as Hx _. subst x. split; [done|]. simpl in Hget.
    destruct (ri !! a) as [v'|] eqn:Ha; [|done]. exists v'. by injection Hget as ->.
  - destruct upto, rest; done.
Qed.

Lemma SetNestedField_blocked ri value path upto :
  blocked ri path upto → SetNestedField ri value path = Err (NotAMap upto).
Proof.
  intros (rest & v & -> & Hupto & Hrest & Hget & Hv).
  exact (setNested_not_traversable upto Hupto [] ri value rest v Hrest Hget Hv).
Qed.

Lemma blocked_edit_fails ri path upto :
  path ∈ capaTargets fl ri → blocked ri path upto →
  content ri = Err (NotAMap upto).
Proof.
  unfold capaTargets. intros Hpath Hb.
  destruct (String.eqb_spec (GetKind ri) awsManagedControlPlane) as [Hk|_].
  { rewrite (content_controlPlane _ Hk). unfold cpRules.
    assert (∃ b, path = ["spec"; b]) as [b ->].
    { destruct (nonempty (vpc_cidr fl)), (nonempty (managedcp_role fl));
        among Hpath; by eexists. }
    destruct (blocked_two _ _ _ _ Hb) as (-> & v & Hspec & Hv).
    destruct (nonempty (vpc_cidr fl)) eqn:Hc.
    - unfold managedCPCIDR, SetNestedMap. rewrite SetNestedField_two, Hspec.
      by destruct v.
    - destruct (nonempty (managedcp_role fl)) eqn:Hr; [|among Hpath].
      simpl. unfold managedCPRole. rewrite SetNestedField_two, Hspec.
      by destruct v. }
  destruct (String.eqb_spec (GetKind ri) awsManagedMachinePool) as [Hk|_].
  { rewrite (content_managedMachinePool _ Hk). unfold mpRules.
    assert (∃ b, path = ["spec"; b]) as [b ->].
    { destruct (nonempty (managedmp_role fl)); among Hpath; by eexists. }
    destruct (blocked_two _ _ _ _ Hb) as (-> & v & Hspec & Hv).
    unfold managedMPScaling, SetNestedMap. rewrite SetNestedField_two, Hspec.
    by destruct v. }
  destruct (String.eqb_spec (GetKind ri) cluster) as [Hk|_]; [|among Hpath].
  rewrite (content_cluster _ Hk). unfold clusterAnnotations.
  apply list_elem_of_singleton in Hpath as ->.
  by apply SetNestedField_blocked.
Qed.

End CapaEdit.

(** ** The closures over a stream *)

Section Stream.

Variable Decode : string -> list Obj * option error.
Variable Marshal : Obj -> Result string.
Variable SetMPConfiguration : Obj -> Z -> Z -> Result Obj.

Local Abbreviation content := (capaContent SetMPConfiguration).
Local Abbreviation marks := (capaMarks SetMPConfiguration).
Local Abbreviation seenIn := (capaSeen Marshal SetMPConfiguration).
Local Abbreviation fn := (capaFn Marshal SetMPConfiguration).

Lemma capaFn_run fl ri v :
  fn fl ri v =
  match (let? ri' := content fl ri in Marshal ri') with
  | Ok data => (Ok tt, {| found := marks fl ri ∪ found v; out := emit data (out v) |})
  | Err e => (Err e, {| found := marks fl ri ∪ found v; out := out v |})
  | Panic => (Panic, {| found := marks fl ri ∪ found v; out := out v |})
  end.
Proof.
  unfold capaFn, mbind. rewrite capaEdit_run.
  destruct (content fl ri) as [ri'| |]; simpl; [|done..].
  unfold lift, modify. by destruct (Marshal ri').
Qed.

Lemma each_capa fl docs : ∀ v,
  fst (eachResource (fn fl) docs v)
    = unitOf (render (content fl) Marshal docs (out v))
  ∧ found (snd (eachResource (fn fl) docs v)) = seenIn fl docs ∪ found v
  ∧ ∀ buf, render (content fl) Marshal docs (out v) = Ok buf →
           out (snd (eachResource (fn fl) docs v)) = buf.
Proof.
  induction docs as [|ri rest IH]; intros v; simpl.
  - split_and!; [done|by rewrite (left_id_L ∅ (∪))|by intros ? [= <-]].
  - unfold mbind. rewrite capaFn_run.
    destruct (content fl ri) as [ri'| |]; simpl; [|by split_and!..].
    destruct (Marshal ri') as [data| |]; simpl; [|by split_and!..].
    destruct (IH {| found := marks fl ri ∪ found v; out := emit data (out v) |})
      as (Hr & Hf & Ho).
    simpl in *. split_and!; [done| |done].
    by rewrite Hf, (assoc_L (∪)).
Qed.

Lemma capkFn_run ri buf :
  capkFn Marshal ri buf =
  match (let? ri' := capkContent ri in Marshal ri') with
  | Ok data => (Ok tt, emit data buf)
  | Err e => (Err e, buf)
  | Panic => (Panic, buf)
  end.
Proof.
  unfold capkFn, capkContent, mbind, lift, mret, modify.
  destruct (String.eqb _ _); simpl.
  - destruct (setBootstrapCheckStrategy ri) as [ri'| |]; simpl; [|done..].
    by destruct (Marshal ri').
  - by destruct (Marshal ri).
Qed.

Lemma each_capk docs : ∀ buf0,
  fst (eachResource (capkFn Marshal) docs buf0)
    = unitOf (render capkContent Marshal docs buf0)
  ∧ ∀ buf, render capkContent Marshal docs buf0 = Ok buf →
           snd (eachResource (capkFn Marshal) docs buf0) = buf.
Proof.
  induction docs as [|ri rest IH]; intros buf0; simpl.
  - split; [done|by intros ? [= <-]].
  - unfold mbind. rewrite capkFn_run.
    destruct (capkContent ri) as [ri'| |]; simpl; [|by split..].
    destruct (Marshal ri') as [data| |]; simpl; [|by split..].
    apply IH.
Qed.

(** [RunE] of capa in terms of the decoded stream. *)
Lemma capaRunE_stream fl io s input docs stop :
  ReadAll io = Ok input → Decode input = (docs, stop) →
  capaRunE Decode Marshal SetMPConfiguration fl io s =
  (match render (content fl) Marshal docs "" with
   | Ok buf =>
       match stop with
       | Some e => failWith (Err e)
       | None =>
           match validation (helperOf fl (seenIn fl docs ∪ s)) with
           | Some e => failWith (Err e)
           | None => deliver io (Ok buf)
           end
       end
   | Err e => failWith (Err e)
   | Panic => failWith Panic
   end,
   seenIn fl docs ∪ s).
Proof.
  intros Hin Hdec. unfold capaRunE, ProcessResources. rewrite Hin, Hdec.
  unfold mbind.
  destruct (each_capa fl docs (startVars s)) as (Hr & Hf & Ho).
  unfold startVars in *.
  destruct (eachResource (fn fl) docs _) as [r v].
  simpl in *. subst r.
  destruct (render (content fl) Marshal docs "") as [buf| |]; simpl.
  2,3: by rewrite Hf.
  specialize (Ho buf eq_refl).
  destruct stop as [e|]; unfold lift, mret; simpl; rewrite Hf; [done|].
  fold (helperOf fl (seenIn fl docs ∪ s)).
  destruct (validation _); [done|].
  unfold deliver. rewrite Ho. by destruct (Stdout_Write io buf).
Qed.

Lemma capkRunE_stream io input docs stop :
  ReadAll io = Ok input → Decode input = (docs, stop) →
  capkRunE Decode Marshal io =
  match render capkContent Marshal docs "" with
  | Ok buf =>
      match stop with
      | Some e => failWith (Err e)
      | None => deliver io (Ok buf)
      end
  | Err e => failWith (Err e)
  | Panic => failWith Panic
  end.
Proof.
  intros Hin Hdec. unfold capkRunE, ProcessResources. rewrite Hin, Hdec.
  unfold mbind.
  destruct (each_capk docs "") as (Hr & Ho).
  destruct (eachResource (capkFn Marshal) docs "") as [r v].
  simpl in *. subst r.
  destruct (render capkContent Marshal docs "") as [buf| |]; simpl; [|done..].
  specialize (Ho buf eq_refl). subst v.
  destruct stop as [e|]; unfold lift, mret; simpl; [done|].
  unfold deliver. by destruct (Stdout_Write io buf).
Qed.

End Stream.

(** ** The buffer and the rendered stream *)

Section Render.

Variable edit : Obj -> Result Obj.
Variable Marshal : Obj -> Result string.

Lemma render_ok docs : ∀ buf b,
  render edit Marshal docs buf = Ok b ↔
  ∃ encs, Forall2 (encoded edit Marshal) docs encs
          ∧ b = foldl (fun buf enc => emit enc buf) buf encs.
Proof.
  induction docs as [|ri rest IH]; intros buf b; simpl.
  - split.
    + intros [= <-]. exists []. by split; [constructor|].
    + intros (encs & HF & ->). by inversion HF.
  - split.
    + intros Hr.
      destruct (edit ri) as [ri'| |] eqn:He; simpl in Hr; [|done..].
      destruct (Marshal ri') as [data| |] eqn:Hm; simpl in Hr; [|done..].
      apply IH in Hr as (encs & HF & ->).
      exists (data :: encs). split; [|done].
      constructor; [|done]. by exists ri'.
    + intros (encs & HF & ->).
      inversion HF as [|? enc ? encs' (ri' & He & Hm) HF']; subst.
      rewrite He. simpl. rewrite Hm. simpl. apply IH. by exists encs'.
Qed.

Lemma render_fails docs ri buf :
  ri ∈ docs → is_ok (edit ri) = false →
  is_ok (render edit Marshal docs buf) = false.
Proof.
  intros Hin Hbad.
  destruct (render edit Marshal docs buf) as [b| |] eqn:Hr; [|done..].
  apply render_ok in Hr as (encs & HF & _).
  apply list_elem_of_lookup in Hin as [i Hi].
  destruct (Forall2_lookup_l _ _ _ _ _ HF Hi) as (enc & _ & ri' & He & _).
  by rewrite He in Hbad.
Qed.

Lemma render_ext (edit' : Obj -> Result Obj) docs :
  Forall (fun ri => edit ri = edit' ri) docs →
  ∀ buf, render edit Marshal docs buf = render edit' Marshal docs buf.
Proof.
  induction 1 as [|ri rest Hri _ IH]; intros buf; simpl; [done|].
  rewrite Hri. destruct (edit' ri) as [ri'| |]; simpl; [|done..].
  destruct (Marshal ri'); simpl; [|done..]. apply IH.
Qed.

End Render.

Lemma render_reencode Marshal docs : ∀ buf,
  render Ok Marshal docs buf = reencode Marshal docs buf.
Proof.
  induction docs as [|ri rest IH]; intros buf; simpl; [done|].
  destruct (Marshal ri); simpl; [|done..]. apply IH.
Qed.

Lemma append_cons ch (a b : string) : String ch a +:+ b = String ch (a +:+ b).
Proof. reflexivity. Qed.

Lemma append_assoc (a b c : string) : (a +:+ b) +:+ c = a +:+ (b +:+ c).
Proof. induction a as [|ch a IH]; [done|]. by rewrite !append_cons, IH. Qed.

Lemma append_empty_r (a : string) : a +:+ "" = a.
Proof. induction a as [|ch a IH]; [done|]. by rewrite append_cons, IH. Qed.

Lemma append_nonempty_r (a b : string) : b ≠ "" → a +:+ b ≠ "".
Proof. destruct a; [done|]. by rewrite append_cons. Qed.

Lemma emit_empty data : emit data "" = data.
Proof. reflexivity. Qed.

Lemma emit_nonempty data buf : buf ≠ "" → emit data buf = buf +:+ separator +:+ data.
Proof.
  intros Hne. unfold emit. destruct buf as [|ch buf]; [done|].
  change (0 <? String.length (String ch buf))%nat with true.
  apply append_assoc.
Qed.

(** With non-empty encodings, appending in turn is joining with the
    separator. *)
Lemma foldl_emit_concat encs : ∀ buf,
  Forall (fun enc => enc ≠ "") encs → buf ≠ "" →
  foldl (fun buf enc => emit enc buf) buf encs =
  buf +:+ match encs with
          | [] => ""
          | _ :: _ => separator +:+ String.concat separator encs
          end.
Proof.
  induction encs as [|enc rest IH]; intros buf Hall Hbuf; simpl.
  - by rewrite append_empty_r.
  - inversion Hall as [|? ? Henc Hrest]; subst.
    rewrite IH; [|done|rewrite emit_nonempty by done; by do 2 apply append_nonempty_r].
    rewrite emit_nonempty by done.
    destruct rest as [|enc' rest]; simpl.
    + by rewrite append_empty_r.
    + by rewrite !append_assoc.
Qed.

Lemma joinDocs_concat encs :
  Forall (fun enc => enc ≠ "") encs → joinDocs encs = String.concat separator encs.
Proof.
  unfold joinDocs. destruct encs as [|enc rest]; [done|].
  intros Hall. inversion Hall as [|? ? Henc Hrest]; subst. simpl.
  rewrite emit_empty, foldl_emit_concat by done.
  destruct rest; simpl; [by rewrite append_empty_r|done].
Qed.

(** The separator is the three dashes and a line feed (character 10). *)
Lemma separator_bytes : separator = "---" +:+ String (Ascii.ascii_of_nat 10) "".
Proof. reflexivity. Qed.

(** With non-empty encodings the buffer is the encodings joined by the
    four bytes [---] and line feed. *)
Lemma joinDocs_bytes encs :
  Forall (fun enc => enc ≠ "") encs →
  joinDocs encs = String.concat ("---" +:+ String (Ascii.ascii_of_nat 10) "") encs.
Proof. intros Hall. by rewrite (joinDocs_concat _ Hall), separator_bytes. Qed.

(** ** The runs *)

Section Runs.

Variable Decode : string -> list Obj * option error.
Variable Marshal : Obj -> Result string.
Variable SetMPConfiguration : Obj -> Z -> Z -> Result Obj.

Local Abbreviation content := (capaContent SetMPConfiguration).
Local Abbreviation seenIn := (capaSeen Marshal SetMPConfiguration).
Local Abbreviation capa := (capaRunE Decode Marshal SetMPConfiguration).
Local Abbreviation capk := (capkRunE Decode Marshal).

(** A capa run either fails without output, or went through every stage
    and handed the whole buffer to standard output. *)
Lemma capaRunE_cases fl io s :
  failedSilently (fst (capa fl io s))
  ∨ ∃ input docs buf,
      ReadAll io = Ok input ∧ Decode input = (docs, None)
      ∧ render (content fl) Marshal docs "" = Ok buf
      ∧ validation (helperOf fl (seenIn fl docs ∪ s)) = None
      ∧ capa fl io s = (deliver io (Ok buf), seenIn fl docs ∪ s).
Proof.
  destruct (ReadAll io) as [input| |] eqn:Hin.
  2,3: left; unfold capaRunE; by rewrite Hin.
  destruct (Decode input) as [docs stop] eqn:Hdec.
  rewrite (capaRunE_stream _ _ _ _ _ _ _ _ _ Hin Hdec). simpl.
  destruct (render _ _ _ _) as [buf| |] eqn:Hr; [|by left..].
  destruct stop as [e|]; [by left|].
  destruct (validation _) eqn:Hv; [by left|].
  right. by exists input, docs, buf.
Qed.

Lemma capkRunE_cases io :
  failedSilently (capk io)
  ∨ ∃ input docs buf,
      ReadAll io = Ok input ∧ Decode input = (docs, None)
      ∧ render capkContent Marshal docs "" = Ok buf
      ∧ capk io = deliver io (Ok buf).
Proof.
  destruct (ReadAll io) as [input| |] eqn:Hin.
  2,3: left; unfold capkRunE; by rewrite Hin.
  destruct (Decode input) as [docs stop] eqn:Hdec.
  rewrite (capkRunE_stream _ _ _ _ _ _ Hin Hdec).
  destruct (render _ _ _ _) as [buf| |] eqn:Hr; [|by left..].
  destruct stop as [e|]; [by left|].
  right. by exists input, docs, buf.
Qed.

Lemma deliver_ok io buf :
  returned (deliver io (Ok buf)) = Ok tt → deliver io (Ok buf) = {| returned := Ok tt; stdout := buf |}.
Proof.
  unfold deliver, Stdout_Write. destruct (WriteFault io) as [[n e]|]; simpl; [done|done].
Qed.

Lemma deliver_no_fault io buf :
  WriteFault io = None → deliver io (Ok buf) = {| returned := Ok tt; stdout := buf |}.
Proof. unfold deliver, Stdout_Write. by intros ->. Qed.

(** C4. Bound ordering: when the lower bound exceeds the upper bound,
    [validation] reports a violation whatever kinds were found, and every
    run of capa fails without writing to standard output, whatever its
    input. *)
Theorem bound_ordering fl io s :
  min_node_count fl > max_node_count fl →
  (∀ isFound, ∃ e, validation (helperOf fl isFound) = Some e)
  ∧ failedSilently (fst (capaRunE Decode Marshal SetMPConfiguration fl io s)).
Proof.
  intros Hgt.
  assert (Hval : ∀ isFound, ∃ e, validation (helperOf fl isFound) = Some e).
  { intros isFound. unfold validation. simpl.
    destruct (negb (wasFound isFound awsManagedControlPlane)).
    - destruct (nonempty (vpc_cidr fl)); [by eexists|].
      destruct (nonempty (managedcp_role fl)); [by eexists|].
      rewrite (proj2 (Z.gtb_gt _ _)) by lia. by eexists.
    - rewrite (proj2 (Z.gtb_gt _ _)) by lia. by eexists. }
  split; [done|].
  destruct (capaRunE_cases fl io s) as [?|(input & docs & buf & _ & _ & _ & Hv & _)];
    [done|].
  destruct (Hval (seenIn fl docs ∪ s)) as [e He]. congruence.
Qed.

(** C5. All-or-nothing output: a run of either command either fails
    having written nothing to standard output, or its input was read and
    decoded without error, every document was edited and encoded, and
    (for capa) the batch validation passed. *)
Theorem all_or_nothing fl io s :
  (failedSilently (fst (capaRunE Decode Marshal SetMPConfiguration fl io s))
   ∨ ∃ input docs,
       ReadAll io = Ok input ∧ Decode input = (docs, None)
       ∧ Forall (fun ri => ∃ enc, encoded (capaContent SetMPConfiguration fl) Marshal ri enc) docs
       ∧ validation (helperOf fl (snd (capaRunE Decode Marshal SetMPConfiguration fl io s))) = None)
  ∧ (failedSilently (capkRunE Decode Marshal io)
     ∨ ∃ input docs,
         ReadAll io = Ok input ∧ Decode input = (docs, None)
         ∧ Forall (fun ri => ∃ enc, encoded capkContent Marshal ri enc) docs).
Proof.
  split.
  - destruct (capaRunE_cases fl io s)
      as [?|(input & docs & buf & Hin & Hdec & Hr & Hv & Hrun)]; [by left|].
    right. exists input, docs. split_and!; [done|done| |by rewrite Hrun].
    apply render_ok in Hr as (encs & HF & _).
    eapply Forall2_Forall_l; [exact HF|].
    apply Forall_forall. intros enc _ ri Henc. by exists enc.
  - destruct (capkRunE_cases io)
      as [?|(input & docs & buf & Hin & Hdec & Hr & Hrun)]; [by left|].
    right. exists input, docs. split_and!; [done|done|].
    apply render_ok in Hr as (encs & HF & _).
    eapply Forall2_Forall_l; [exact HF|].
    apply Forall_forall. intros enc _ ri Henc. by exists enc.
Qed.

(** C6. Order preservation and separator convention: when a run returns
    no error, standard output holds exactly one encoding per decoded
    document, each the encoding of that document as edited, in the order
    of the input and joined by the four bytes [---] and line feed, with
    nothing before the first encoding.  [yaml.Marshal] never yields an
    empty encoding. *)
Theorem order_and_separator fl io s :
  (∀ ri data, Marshal ri = Ok data → data ≠ "") →
  (returned (fst (capaRunE Decode Marshal SetMPConfiguration fl io s)) = Ok tt →
   ∃ input docs encs,
     ReadAll io = Ok input ∧ Decode input = (docs, None)
     ∧ length encs = length docs
     ∧ Forall2 (encoded (capaContent SetMPConfiguration fl) Marshal) docs encs
     ∧ stdout (fst (capaRunE Decode Marshal SetMPConfiguration fl io s))
       = String.concat ("---" +:+ String (Ascii.ascii_of_nat 10) "") encs)
  ∧ (returned (capkRunE Decode Marshal io) = Ok tt →
     ∃ input docs encs,
       ReadAll io = Ok input ∧ Decode input = (docs, None)
       ∧ length encs = length docs
       ∧ Forall2 (encoded capkContent Marshal) docs encs
       ∧ stdout (capkRunE Decode Marshal io)
         = String.concat ("---" +:+ String (Ascii.ascii_of_nat 10) "") encs).
Proof.
  intros Hne.
  assert (Hjoin : ∀ edit docs encs,
    Forall2 (encoded edit Marshal) docs encs →
    foldl (fun buf enc => emit enc buf) "" encs
    = String.concat ("---" +:+ String (Ascii.ascii_of_nat 10) "") encs).
  { intros edit docs encs HF. apply joinDocs_bytes.
    eapply Forall2_Forall_r; [exact HF|].
    apply Forall_forall. intros ri _ enc (ri' & _ & Hm). by eapply Hne. }
  split; intros Hret.
  - destruct (capaRunE_cases fl io s)
      as [[Hbad _]|(input & docs & buf & Hin & Hdec & Hr & Hv & Hrun)];
      [by rewrite Hret in Hbad|].
    rewrite Hrun in Hret |- *. cbn [fst] in Hret |- *.
    apply deliver_ok in Hret. rewrite Hret. cbn [stdout].
    apply render_ok in Hr as (encs & HF & ->).
    exists input, docs, encs.
    split; [done|]. split; [done|].
    split; [symmetry; exact (Forall2_length _ _ _ HF)|].
    split; [done|]. by eapply Hjoin.
  - destruct (capkRunE_cases io)
      as [[Hbad _]|(input & docs & buf & Hin & Hdec & Hr & Hrun)];
      [by rewrite Hret in Hbad|].
    rewrite Hrun in Hret |- *. apply deliver_ok in Hret. rewrite Hret. cbn [stdout].
    apply render_ok in Hr as (encs & HF & ->).
    exists input, docs, encs.
    split; [done|]. split; [done|].
    split; [symmetry; exact (Forall2_length _ _ _ HF)|].
    split; [done|]. by eapply Hjoin.
Qed.

(** C7 (amended). Retry: running capa again on the same command, with the
    same flags, input and output conditions, returns the same error,
    writes the same bytes and leaves the [isFound] map as the first run
    left it.  The map belongs to the command, not to the run. *)
Theorem retry_same_outcome fl io s :
  capaRunE Decode Marshal SetMPConfiguration fl io (snd (capaRunE Decode Marshal SetMPConfiguration fl io s)) = capaRunE Decode Marshal SetMPConfiguration fl io s.
Proof.
  destruct (ReadAll io) as [input| |] eqn:Hin.
  2,3: unfold capaRunE; by rewrite Hin.
  destruct (Decode input) as [docs stop] eqn:Hdec.
  rewrite !(capaRunE_stream _ _ _ _ _ _ _ _ _ Hin Hdec). simpl.
  by rewrite (assoc_L (∪)), (idemp_L (∪)).
Qed.

(** C10. capk has no batch validation: when the input is read and decoded
    without error, every document is edited and encoded, and standard
    output takes the bytes, the run returns no error, whatever the kinds
    of the documents; and it writes the encodings, in order, joined by the
    four bytes [---] and line feed (no encoding being empty). *)
Theorem capk_no_validation io input docs encs :
  ReadAll io = Ok input → Decode input = (docs, None) →
  Forall2 (encoded capkContent Marshal) docs encs →
  WriteFault io = None →
  returned (capkRunE Decode Marshal io) = Ok tt
  ∧ (Forall (fun enc => enc ≠ "") encs →
     stdout (capkRunE Decode Marshal io)
     = String.concat ("---" +:+ String (Ascii.ascii_of_nat 10) "") encs).
Proof.
  intros Hin Hdec HF Hw.
  rewrite (capkRunE_stream _ _ _ _ _ _ Hin Hdec).
  assert (Hr : render capkContent Marshal docs "" = Ok (joinDocs encs)).
  { apply render_ok. by exists encs. }
  rewrite Hr, (deliver_no_fault _ _ Hw). cbn [returned stdout].
  split; [done|]. apply joinDocs_bytes.
Qed.

Lemma capa_fails_on fl io s input docs stop ri :
  ReadAll io = Ok input → Decode input = (docs, stop) →
  ri ∈ docs → is_ok (content fl ri) = false →
  failedSilently (fst (capa fl io s)).
Proof.
  intros Hin Hdec Hri Hbad.
  destruct (capaRunE_cases fl io s)
    as [?|(input' & docs' & buf & Hin' & Hdec' & Hr & _)]; [done|].
  rewrite Hin in Hin'. injection Hin' as <-.
  rewrite Hdec in Hdec'. injection Hdec' as <- _.
  pose proof (render_fails _ Marshal docs ri "" Hri Hbad) as Hf.
  by rewrite Hr in Hf.
Qed.

Lemma capk_fails_on io input docs stop ri :
  ReadAll io = Ok input → Decode input = (docs, stop) →
  ri ∈ docs → is_ok (capkContent ri) = false →
  failedSilently (capk io).
Proof.
  intros Hin Hdec Hri Hbad.
  destruct (capkRunE_cases io)
    as [?|(input' & docs' & buf & Hin' & Hdec' & Hr & _)]; [done|].
  rewrite Hin in Hin'. injection Hin' as <-.
  rewrite Hdec in Hdec'. injection Hdec' as <- _.
  pose proof (render_fails _ Marshal docs ri "" Hri Hbad) as Hf.
  by rewrite Hr in Hf.
Qed.

(** C8. Fail-fast on a malformed path: when a path meets, before its last
    key, a key of the document that holds something other than a map,
    the nested-field write returns the not-a-map error for the path up
    to that key (it neither panics nor overwrites the value); and when a
    rule of capa or capk writes that path in a document of the input,
    the edit of the document is that error and the run fails having
    written nothing. *)
Theorem fail_fast_not_traversable fl io s input docs stop ri path upto :
  ReadAll io = Ok input → Decode input = (docs, stop) →
  ri ∈ docs → blocked ri path upto →
  (∀ value, SetNestedField ri value path = Err (NotAMap upto))
  ∧ (path ∈ capaTargets fl ri →
     capaContent SetMPConfiguration fl ri = Err (NotAMap upto) ∧ failedSilently (fst (capaRunE Decode Marshal SetMPConfiguration fl io s)))
  ∧ (path ∈ capkTargets ri →
     capkContent ri = Err (NotAMap upto) ∧ failedSilently (capkRunE Decode Marshal io)).
Proof.
  intros Hin Hdec Hri Hb. split_and!.
  - intros value. by apply SetNestedField_blocked.
  - intros Hpath.
    pose proof (blocked_edit_fails SetMPConfiguration fl ri path upto Hpath Hb) as He.
    split; [done|].
    eapply capa_fails_on; [done..|]. by rewrite He.
  - unfold capkTargets, capkContent. intros Hpath.
    destruct (String.eqb _ _) eqn:Hk; [|among Hpath].
    apply list_elem_of_singleton in Hpath as ->.
    assert (He : setBootstrapCheckStrategy ri = Err (NotAMap upto))
      by by apply SetNestedField_blocked.
    split; [done|].
    eapply capk_fails_on; [done..|].
    unfold capkContent. by rewrite Hk, He.
Qed.

Lemma rules_then_role ri value first (role : bool) roleName ri' :
  first ≠ "roleName" →
  (let? ri := SetNestedField ri value ["spec"; first] in
   if role then SetNestedField ri (VString roleName) ["spec"; "roleName"] else Ok ri)
  = Ok ri' →
  getPath (VMap ri') ["spec"; first] = Some value.
Proof.
  intros Hne.
  destruct (SetNestedField ri value ["spec"; first]) as [ri1| |] eqn:H1;
    cbn [rbind]; [|done..].
  apply write_two_read in H1. destruct role.
  - intros H2. by rewrite (write_two_frame _ _ _ _ _ first H2).
  - by intros [= <-].
Qed.

Lemma rules_then_role_ok ri value first (role : bool) roleName :
  is_ok (let? ri := SetNestedField ri value ["spec"; first] in
         if role then SetNestedField ri (VString roleName) ["spec"; "roleName"]
         else Ok ri)
  = traversable ri "spec".
Proof.
  rewrite <- (write_two_ok ri value "spec" first).
  destruct (SetNestedField ri value ["spec"; first]) as [ri1| |] eqn:H1;
    cbn [rbind]; [|done..].
  destruct role; [|done].
  by rewrite write_two_ok, (write_two_traversable _ _ _ _ _ H1).
Qed.

(** C9. Subtree replacement: with the CIDR flag set, the edit of an
    [AWSManagedControlPlane] document succeeds exactly when [spec] is
    absent or a map, and then [spec.network] is the new map
    [{vpc: {cidrBlock: <value>}}] and holds nothing else; likewise the
    edit of an [AWSManagedMachinePool] document leaves [spec.scaling]
    equal to [{minSize, maxSize}] and nothing else. *)
Theorem subtree_replaced fl ri :
  (GetKind ri = awsManagedControlPlane → nonempty (vpc_cidr fl) = true →
   is_ok (capaContent SetMPConfiguration fl ri) = traversable ri "spec"
   ∧ ∀ ri', capaContent SetMPConfiguration fl ri = Ok ri' →
       getPath (VMap ri') ["spec"; "network"]
         = Some (VMap {[ "vpc" := VMap {[ "cidrBlock" := VString (vpc_cidr fl) ]} ]})
       ∧ ∀ key, key ≠ "vpc" →
           getPath (VMap ri') ["spec"; "network"; key] = None)
  ∧ (GetKind ri = awsManagedMachinePool →
     is_ok (capaContent SetMPConfiguration fl ri) = traversable ri "spec"
     ∧ ∀ ri', capaContent SetMPConfiguration fl ri = Ok ri' →
         getPath (VMap ri') ["spec"; "scaling"]
           = Some (VMap (<["minSize" := VInt (min_node_count fl)]>
                           (<["maxSize" := VInt (max_node_count fl)]> ∅)))
         ∧ ∀ key, key ≠ "minSize" → key ≠ "maxSize" →
             getPath (VMap ri') ["spec"; "scaling"; key] = None).
Proof.
  split.
  - intros Hk Hc. rewrite (content_controlPlane _ _ _ Hk).
    unfold cpRules, managedCPCIDR, managedCPRole, SetNestedMap. rewrite Hc.
    split; [apply rules_then_role_ok|].
    intros ri' Hri'. apply rules_then_role in Hri'; [|done].
    split; [done|]. intros key Hkey.
    change ["spec"; "network"; key] with (["spec"; "network"] ++ [key]).
    rewrite getPath_app, Hri'. simpl. by rewrite lookup_singleton_ne.
  - intros Hk. rewrite (content_managedMachinePool _ _ _ Hk).
    unfold mpRules, managedMPScaling, managedMPRole, SetNestedMap.
    split; [apply rules_then_role_ok|].
    intros ri' Hri'. apply rules_then_role in Hri'; [|done].
    split; [done|]. intros key Hmin Hmax.
    change ["spec"; "scaling"; key] with (["spec"; "scaling"] ++ [key]).
    rewrite getPath_app, Hri'. simpl.
    by rewrite !lookup_insert_ne, lookup_empty.
Qed.

Lemma rbind_Ok {A} (r : Result A) : (let? a := r in Ok a) = r.
Proof. by destruct r. Qed.

Lemma validation_default isFound :
  validation (helperOf defaultFlags isFound) = None.
Proof.
  unfold validation. simpl.
  destruct (wasFound isFound awsManagedControlPlane),
    (wasFound isFound cluster); done.
Qed.

(** C1 (amended). No-op stability: with every string flag empty and the
    bounds at their defaults, capa leaves the content of every document
    unchanged whose kind is none of [MachinePool],
    [AWSManagedMachinePool] and [Cluster], and capk leaves every document
    unchanged whose kind is not [KubevirtMachineTemplate]; on a stream of
    such documents the run hands standard output the documents
    re-encoded as they were decoded.  The bounds are always written to an
    [AWSManagedMachinePool] document and the check strategy to a
    [KubevirtMachineTemplate] document. *)
Theorem noop_stability io s input docs :
  ReadAll io = Ok input → Decode input = (docs, None) →
  (Forall (fun ri => GetKind ri ≠ machinePool
                     ∧ GetKind ri ≠ awsManagedMachinePool
                     ∧ GetKind ri ≠ cluster) docs →
   Forall (fun ri => capaContent SetMPConfiguration defaultFlags ri = Ok ri) docs
   ∧ fst (capaRunE Decode Marshal SetMPConfiguration defaultFlags io s) = deliver io (reencode Marshal docs ""))
  ∧ (absent "KubevirtMachineTemplate" docs →
     Forall (fun ri => capkContent ri = Ok ri) docs
     ∧ capkRunE Decode Marshal io = deliver io (reencode Marshal docs ""))
  ∧ (∀ ri, GetKind ri = awsManagedMachinePool →
       capaContent SetMPConfiguration defaultFlags ri = managedMPScaling ri 1 6)
  ∧ (∀ ri, GetKind ri = "KubevirtMachineTemplate" →
       capkContent ri = setBootstrapCheckStrategy ri).
Proof.
  intros Hin Hdec. split_and!.
  - intros Hkinds.
    assert (Hsame : Forall (fun ri => content defaultFlags ri = Ok ri) docs).
    { eapply Forall_impl; [exact Hkinds|]. intros ri (Hmp & Hamp & Hcl).
      destruct (String.eqb_spec (GetKind ri) awsManagedControlPlane) as [Hk|Hk].
      - by rewrite (content_controlPlane _ _ _ Hk).
      - by apply content_other. }
    split; [done|].
    rewrite (capaRunE_stream _ _ _ _ _ _ _ _ _ Hin Hdec). cbn [fst].
    rewrite (render_ext _ _ Ok docs Hsame), render_reencode, validation_default.
    by destruct (reencode Marshal docs "").
  - intros Hkinds.
    assert (Hsame : Forall (fun ri => capkContent ri = Ok ri) docs).
    { eapply Forall_impl; [exact Hkinds|]. intros ri Hk.
      unfold capkContent. by rewrite kind_neqb. }
    split; [done|].
    rewrite (capkRunE_stream _ _ _ _ _ _ Hin Hdec).
    rewrite (render_ext _ _ Ok docs Hsame), render_reencode.
    by destruct (reencode Marshal docs "").
  - intros ri Hk. rewrite (content_managedMachinePool _ _ _ Hk).
    unfold mpRules. simpl. apply rbind_Ok.
  - intros ri Hk. unfold capkContent. by rewrite kind_eqb.
Qed.

(** *** What [isFound] holds after a pass *)

Section Found.

Hypothesis Hkeep : keepsKind SetMPConfiguration.

Lemma marks_lookup fl ri kind b :
  capaMarks SetMPConfiguration fl ri !! kind = Some b →
  b = true ∧ GetKind ri = kind.
Proof.
  unfold capaMarks.
  destruct (String.eqb_spec (GetKind ri) awsManagedControlPlane) as [Hk|H1].
  { rewrite (capaEdit_controlPlane _ _ _ _ Hk). simpl.
    intros [[<- <-] | [_ ?]]%lookup_insert_Some; done. }
  destruct (String.eqb_spec (GetKind ri) machinePool) as [Hk|H2].
  { rewrite capaEdit_machinePool; [|intros ?; apply Hkeep|done]. simpl.
    intros [[<- <-] | [_ ?]]%lookup_insert_Some; done. }
  destruct (String.eqb_spec (GetKind ri) awsManagedMachinePool) as [Hk|H3].
  { rewrite (capaEdit_managedMachinePool _ _ _ _ Hk). simpl.
    intros [[<- <-] | [_ ?]]%lookup_insert_Some; done. }
  destruct (String.eqb_spec (GetKind ri) cluster) as [Hk|H4].
  { rewrite (capaEdit_cluster _ _ _ _ Hk). simpl.
    intros [[<- <-] | [_ ?]]%lookup_insert_Some; done. }
  by rewrite capaEdit_other.
Qed.

Lemma seen_lookup fl docs kind b :
  seenIn fl docs !! kind = Some b →
  b = true ∧ Exists (fun ri => GetKind ri = kind) docs.
Proof.
  induction docs as [|ri rest IH]; simpl; [done|].
  assert (Hhead : capaMarks SetMPConfiguration fl ri !! kind = Some b →
                  b = true ∧ Exists (fun ri => GetKind ri = kind) (ri :: rest)).
  { intros [-> Hk]%marks_lookup. split; [done|]. by constructor. }
  destruct (let? ri' := content fl ri in Marshal ri'); [|done..].
  intros [Hrest | [_ Hri]]%lookup_union_Some_raw; [|by apply Hhead].
  destruct (IH Hrest) as [-> ?]. split; [done|]. by constructor 2.
Qed.

Lemma seen_absent fl docs kind :
  absent kind docs → wasFound (seenIn fl docs ∪ NewCmdCAPA) kind = false.
Proof.
  intros Habs. unfold wasFound, NewCmdCAPA. rewrite (right_id_L ∅ (∪)).
  destruct (seenIn fl docs !! kind) as [b|] eqn:Hb; [|done].
  apply seen_lookup in Hb as [_ Hex].
  apply Exists_exists in Hex as (ri & Hri & Hk).
  unfold absent in Habs. rewrite Forall_forall in Habs.
  by destruct (Habs ri Hri).
Qed.

Lemma seen_controlPlane fl docs buf b s :
  render (content fl) Marshal docs buf = Ok b →
  Exists (fun ri => GetKind ri = awsManagedControlPlane) docs →
  wasFound (seenIn fl docs ∪ s) awsManagedControlPlane = true.
Proof.
  intros Hr Hex. unfold wasFound.
  enough (seenIn fl docs !! awsManagedControlPlane = Some true) as Hs
    by by rewrite (lookup_union_Some_l _ _ _ _ Hs).
  revert buf Hr. induction Hex as [ri rest Hk|ri rest Hex IH]; intros buf; simpl;
    destruct (let? ri' := content fl ri in Marshal ri') as [data| |] eqn:Hd;
    try (destruct (content fl ri) as [ri'| |]; simpl in *; [|done..];
         by rewrite Hd).
  - intros _.
    assert (Hm : capaMarks SetMPConfiguration fl ri !! awsManagedControlPlane
                 = Some true).
    { unfold capaMarks. rewrite (capaEdit_controlPlane _ _ _ _ Hk). simpl.
      apply lookup_insert_eq. }
    destruct (seenIn fl rest !! awsManagedControlPlane) as [x|] eqn:Hx.
    + destruct (seen_lookup _ _ _ _ Hx) as [-> _].
      by apply lookup_union_Some_l.
    + by rewrite lookup_union_r.
  - destruct (content fl ri) as [ri'| |]; simpl in *; [|done..].
    rewrite Hd. simpl. intros Hr.
    apply lookup_union_Some_l. by eapply IH.
Qed.

End Found.

(** *** The gates of [validation] *)

Lemma gate_cidr h :
  nonempty (vpcCidr h) = true →
  wasFound (isFound h) awsManagedControlPlane = false →
  validation h
  = Some (ErrorsNew "failed to get AWSManagedControlPlane for cidr update").
Proof. intros Hc Hf. unfold validation. by rewrite Hf, Hc. Qed.

Lemma gate_controlPlane_role h :
  nonempty (managedControlplaneRole h) = true →
  wasFound (isFound h) awsManagedControlPlane = false →
  validation h
  = Some (ErrorsNew
            (if nonempty (vpcCidr h)
             then "failed to get AWSManagedControlPlane for cidr update"
             else "failed to get AWSManagedControlPlane for role configuration")).
Proof.
  intros Hr Hf. unfold validation. rewrite Hf, Hr. simpl.
  by destruct (nonempty (vpcCidr h)).
Qed.

Lemma gate_machinePool_role h :
  nonempty (managedMachinepoolRole h) = true →
  wasFound (isFound h) awsManagedMachinePool = false →
  ∃ e, validation h = Some e
       ∧ (wasFound (isFound h) awsManagedControlPlane = true
          ∨ (nonempty (vpcCidr h) = false
             ∧ nonempty (managedControlplaneRole h) = false) →
          minCount h ≤ maxCount h →
          e = ErrorsNew "failed to get AWSManagedMachinePool for role configuration").
Proof.
  intros Hr Hf. unfold validation. rewrite Hr, Hf. simpl.
  destruct (wasFound (isFound h) awsManagedControlPlane); simpl.
  - destruct (Z.gtb_spec (minCount h) (maxCount h)).
    + eexists. split; [done|]. intros _ ?. lia.
    + by eexists.
  - destruct (nonempty (vpcCidr h)).
    { eexists. split; [done|]. by intros [?|[? _]]. }
    destruct (nonempty (managedControlplaneRole h)).
    { eexists. split; [done|]. by intros [?|[_ ?]]. }
    destruct (Z.gtb_spec (minCount h) (maxCount h)).
    + eexists. split; [done|]. intros _ ?. lia.
    + by eexists.
Qed.

Lemma gate_cluster h :
  nonempty (managedControlplaneRole h) = true →
  wasFound (isFound h) cluster = false →
  ∃ e, validation h = Some e.
Proof.
  intros Hr Hf. unfold validation. rewrite Hr, Hf. simpl.
  destruct (wasFound (isFound h) awsManagedControlPlane); simpl.
  - destruct (_ >? _); [by eexists|].
    destruct (nonempty _ && _); by eexists.
  - destruct (nonempty (vpcCidr h)); [by eexists|]. by eexists.
Qed.

(** A run of capa on a stream that decodes to [docs], in terms of what
    [validation] says of the kinds seen. *)
Lemma capa_gated fl io s input docs stop e :
  ReadAll io = Ok input → Decode input = (docs, stop) →
  validation (helperOf fl (seenIn fl docs ∪ s)) = Some e →
  failedSilently (fst (capa fl io s))
  ∧ (stop = None → is_ok (render (content fl) Marshal docs "") = true →
     returned (fst (capa fl io s)) = Err e).
Proof.
  intros Hin Hdec Hv.
  rewrite (capaRunE_stream _ _ _ _ _ _ _ _ _ Hin Hdec), Hv. cbn [fst].
  destruct (render _ _ _ _) as [buf| |]; [|by split..].
  destruct stop; [by split|]. by split.
Qed.

(** C3 (amended). Cross-kind gating, for a run on a fresh command: when
    an intent is requested and no document of the kind it targets is in
    the input, the run fails having written nothing.  When decoding and
    every edit and encoding succeed, the error is the first failing
    check of [validation]: the CIDR message, naming
    [AWSManagedControlPlane], for the CIDR; that or the role message for
    the control-plane role; and for the machine-pool role the message
    naming [AWSManagedMachinePool], provided the control-plane and bound
    checks pass. *)
Theorem cross_kind_gating fl io input docs stop :
  keepsKind SetMPConfiguration →
  ReadAll io = Ok input → Decode input = (docs, stop) →
  (nonempty (vpc_cidr fl) = true → absent awsManagedControlPlane docs →
   failedSilently (fst (capaRunE Decode Marshal SetMPConfiguration fl io NewCmdCAPA))
   ∧ (routed (capaContent SetMPConfiguration fl) Marshal docs stop →
      returned (fst (capaRunE Decode Marshal SetMPConfiguration fl io NewCmdCAPA))
      = Err (ErrorsNew "failed to get AWSManagedControlPlane for cidr update")))
  ∧ (nonempty (managedcp_role fl) = true → absent awsManagedControlPlane docs →
     failedSilently (fst (capaRunE Decode Marshal SetMPConfiguration fl io NewCmdCAPA))
     ∧ (routed (capaContent SetMPConfiguration fl) Marshal docs stop →
        returned (fst (capaRunE Decode Marshal SetMPConfiguration fl io NewCmdCAPA))
        = Err (ErrorsNew
                 (if nonempty (vpc_cidr fl)
                  then "failed to get AWSManagedControlPlane for cidr update"
                  else "failed to get AWSManagedControlPlane for role configuration"))))
  ∧ (nonempty (managedmp_role fl) = true → absent awsManagedMachinePool docs →
     failedSilently (fst (capaRunE Decode Marshal SetMPConfiguration fl io NewCmdCAPA))
     ∧ (routed (capaContent SetMPConfiguration fl) Marshal docs stop →
        Exists (fun ri => GetKind ri = awsManagedControlPlane) docs
        ∨ (nonempty (vpc_cidr fl) = false ∧ nonempty (managedcp_role fl) = false) →
        min_node_count fl ≤ max_node_count fl →
        returned (fst (capaRunE Decode Marshal SetMPConfiguration fl io NewCmdCAPA))
        = Err (ErrorsNew "failed to get AWSManagedMachinePool for role configuration")))
  ∧ (nonempty (managedcp_role fl) = true → absent cluster docs →
     failedSilently (fst (capaRunE Decode Marshal SetMPConfiguration fl io NewCmdCAPA))).
Proof.
  intros Hkeep Hin Hdec. unfold routed. split_and!.
  - intros Hc Habs.
    pose proof (gate_cidr (helperOf fl (seenIn fl docs ∪ NewCmdCAPA)) Hc
                  (seen_absent Hkeep fl docs _ Habs)) as Hv.
    destruct (capa_gated fl io NewCmdCAPA input docs stop _ Hin Hdec Hv) as [Hf Hr].
    split; [done|]. intros [? ?]. by apply Hr.
  - intros Hc Habs.
    pose proof (gate_controlPlane_role (helperOf fl (seenIn fl docs ∪ NewCmdCAPA)) Hc
                  (seen_absent Hkeep fl docs _ Habs)) as Hv.
    destruct (capa_gated fl io NewCmdCAPA input docs stop _ Hin Hdec Hv) as [Hf Hr].
    split; [done|]. intros [? ?]. by apply Hr.
  - intros Hc Habs.
    destruct (gate_machinePool_role (helperOf fl (seenIn fl docs ∪ NewCmdCAPA)) Hc
                (seen_absent Hkeep fl docs _ Habs)) as (e & Hv & He).
    destruct (capa_gated fl io NewCmdCAPA input docs stop _ Hin Hdec Hv) as [Hf Hr].
    split; [done|]. intros [Hstop Hok] Hcp Hle.
    rewrite (Hr Hstop Hok). f_equal. apply He; [|done].
    destruct Hcp as [Hex|?]; [left|by right]. simpl.
    destruct (render (content fl) Marshal docs "") as [buf| |] eqn:Hrender; [|done..].
    by eapply seen_controlPlane.
  - intros Hc Habs.
    destruct (gate_cluster (helperOf fl (seenIn fl docs ∪ NewCmdCAPA)) Hc
                (seen_absent Hkeep fl docs _ Habs)) as (e & Hv).
    by destruct (capa_gated fl io NewCmdCAPA input docs stop _ Hin Hdec Hv).
Qed.

End Runs.

(** ** The stand-ins *)

Lemma GetKind_doc kind : GetKind (doc kind) = kind.
Proof. unfold GetKind, doc. by rewrite lookup_singleton_eq. Qed.

Lemma SetMPConfiguration_spec_keepsKind : keepsKind SetMPConfiguration_spec.
Proof.
  intros ri lo hi ri' [= <-]. unfold GetKind. by rewrite lookup_insert_ne.
Qed.

Lemma kindMarshal_nonempty ri data : kindMarshal ri = Ok data → data ≠ "".
Proof. by intros [= <-]. Qed.

(** ** The scenario of section 8 *)

(** C2. In the scenario (kinds [MachinePool] and [Cluster], bounds 2 and 5,
    no role) the closure writes the control-plane role annotation, empty,
    into the [Cluster] document, whatever [SetMPConfiguration] is: the
    document does not stay as decoded. *)
Theorem scenario_cluster_annotated (SetMPConfiguration : Obj -> Z -> Z -> Result Obj) :
  capaContent SetMPConfiguration scenarioFlags (doc cluster)
  = Ok (<["metadata" :=
            VMap {[ "annotations" :=
                      VMap {[ controlplaneRoleAnnotation := VString "" ]} ]}]>
          (doc cluster))
  ∧ capaContent SetMPConfiguration scenarioFlags (doc cluster) ≠ Ok (doc cluster).
Proof.
  rewrite content_cluster by apply GetKind_doc.
  assert (Heq : clusterAnnotations (doc cluster) (managedcp_role scenarioFlags)
    = Ok (<["metadata" :=
              VMap {[ "annotations" :=
                        VMap {[ controlplaneRoleAnnotation := VString "" ]} ]}]>
            (doc cluster))) by reflexivity.
  split; [done|]. rewrite Heq. intros H.
  apply (f_equal (fun r : Result Obj =>
                    match r with Ok m => m !! "metadata" | _ => None end)) in H.
  rewrite lookup_insert_eq in H. unfold doc in H.
  by rewrite lookup_singleton_ne in H.
Qed.

(** The other half of the scenario, under the model of [SetMPConfiguration]
    taken from the specification. *)
Example scenario_machinePool_scaled :
  capaContent SetMPConfiguration_spec scenarioFlags (doc machinePool)
  = Ok (<["scaling" := VMap (<["min" := VInt 2]> (<["max" := VInt 5]> ∅))]>
          (doc machinePool)).
Proof.
  unfold capaContent.
  rewrite capaEdit_machinePool;
    [done|intros ?; apply SetMPConfiguration_spec_keepsKind|apply GetKind_doc].
Qed.

(** ** Where the stated claims fail *)

(** C1 as stated fails: with every flag at its default, capa replaces the
    [spec.scaling] of an [AWSManagedMachinePool] document by the default
    bounds. *)
Lemma noop_rewrites_scaling :
  getPath (VMap machinePoolDoc) ["spec"; "scaling"; "minSize"] = Some (VInt 3)
  ∧ capaContent SetMPConfiguration_spec defaultFlags machinePoolDoc
    = Ok (<["spec" := VMap {[ "scaling" := VMap (<["minSize" := VInt 1]>
                                                   (<["maxSize" := VInt 6]> ∅)) ]}]>
            machinePoolDoc)
  ∧ capaContent SetMPConfiguration_spec defaultFlags machinePoolDoc
    ≠ Ok machinePoolDoc.
Proof.
  assert (Hk : GetKind machinePoolDoc = awsManagedMachinePool) by reflexivity.
  rewrite (content_managedMachinePool _ _ _ Hk).
  assert (Heq : mpRules defaultFlags machinePoolDoc
    = Ok (<["spec" := VMap {[ "scaling" := VMap (<["minSize" := VInt 1]>
                                                   (<["maxSize" := VInt 6]> ∅)) ]}]>
            machinePoolDoc)) by reflexivity.
  split_and!; [reflexivity|done|].
  rewrite Heq. intros H.
  apply (f_equal (fun r : Result Obj =>
                    match r with
                    | Ok m => getPath (VMap m) ["spec"; "scaling"; "minSize"]
                    | _ => None
                    end)) in H.
  vm_compute in H. discriminate H.
Qed.

(** C3 as stated fails: [validation] returns its first failing check, so
    the violation for a missing [AWSManagedMachinePool] is replaced by the
    bound violation, or by that of a missing control plane. *)
Lemma gating_reports_first_failure :
  absent awsManagedMachinePool [doc cluster]
  ∧ returned (fst (capaOn roleAndSwappedBounds "cluster.yaml" NewCmdCAPA))
    = Err (ErrorsNew "max node count can't be less than min node count")
  ∧ names (ErrorsNew "max node count can't be less than min node count")
      awsManagedMachinePool = false
  ∧ returned (fst (capaOn cidrAndPoolRole "cluster.yaml" NewCmdCAPA))
    = Err (ErrorsNew "failed to get AWSManagedControlPlane for cidr update")
  ∧ names (ErrorsNew "failed to get AWSManagedControlPlane for cidr update")
      awsManagedMachinePool = false.
Proof.
  split_and!; try reflexivity.
  repeat constructor. by rewrite GetKind_doc.
Qed.

(** C7 as stated fails: the same input and flags fail on a fresh command
    and succeed on a command that has processed a control plane before,
    because [isFound] is kept from one run to the next. *)
Lemma isFound_outlives_run :
  fst (capaOn cidrFlags "cluster.yaml" NewCmdCAPA)
  = failWith (Err (ErrorsNew "failed to get AWSManagedControlPlane for cidr update"))
  ∧ fst (capaOn cidrFlags "cluster.yaml"
           (snd (capaOn defaultFlags "control-plane.yaml" NewCmdCAPA)))
    = {| returned := Ok tt; stdout := "kind: Cluster" +:+ LF |}.
Proof. split; reflexivity. Qed.

(** ** The theorems at concrete inputs *)

Lemma bound_ordering_witness :
  min_node_count swappedBounds > max_node_count swappedBounds
  ∧ (∀ isFound, ∃ e, validation (helperOf swappedBounds isFound) = Some e)
  ∧ failedSilently (fst (capaOn swappedBounds "cluster.yaml" NewCmdCAPA)).
Proof.
  split; [reflexivity|].
  apply (bound_ordering (tableDecode bundles) kindMarshal SetMPConfiguration_spec
           swappedBounds (stdinOf "cluster.yaml") NewCmdCAPA).
  reflexivity.
Defined.

Lemma capk_no_validation_witness :
  ReadAll (stdinOf "pools.yaml") = Ok "pools.yaml"
  ∧ tableDecode bundles "pools.yaml" = ([doc machinePool; doc cluster], None)
  ∧ Forall2 (encoded capkContent kindMarshal) [doc machinePool; doc cluster]
      ["kind: MachinePool" +:+ String (Ascii.ascii_of_nat 10) "";
       "kind: Cluster" +:+ String (Ascii.ascii_of_nat 10) ""]
  ∧ Forall (fun enc => enc ≠ "")
      ["kind: MachinePool" +:+ String (Ascii.ascii_of_nat 10) "";
       "kind: Cluster" +:+ String (Ascii.ascii_of_nat 10) ""]
  ∧ WriteFault (stdinOf "pools.yaml") = None
  ∧ returned (capkOn "pools.yaml") = Ok tt
  ∧ stdout (capkOn "pools.yaml")
    = String.concat ("---" +:+ String (Ascii.ascii_of_nat 10) "")
        ["kind: MachinePool" +:+ String (Ascii.ascii_of_nat 10) "";
         "kind: Cluster" +:+ String (Ascii.ascii_of_nat 10) ""]
  ∧ stdout (capkOn "pools.yaml")
    = "kind: MachinePool"
      +:+ String (Ascii.ascii_of_nat 10)
            ("---" +:+ String (Ascii.ascii_of_nat 10) ("kind: Cluster" +:+ String (Ascii.ascii_of_nat 10) "")).
Proof.
  assert (HF : Forall2 (encoded capkContent kindMarshal) [doc machinePool; doc cluster]
                 ["kind: MachinePool" +:+ String (Ascii.ascii_of_nat 10) "";
                  "kind: Cluster" +:+ String (Ascii.ascii_of_nat 10) ""]).
  { constructor; [exists (doc machinePool); split; reflexivity|].
    constructor; [exists (doc cluster); split; reflexivity|constructor]. }
  assert (Hne : Forall (fun enc => enc ≠ "")
                  ["kind: MachinePool" +:+ String (Ascii.ascii_of_nat 10) "";
                   "kind: Cluster" +:+ String (Ascii.ascii_of_nat 10) ""]).
  { constructor; [discriminate|]. constructor; [discriminate|constructor]. }
  destruct (capk_no_validation (tableDecode bundles) kindMarshal (stdinOf "pools.yaml")
              "pools.yaml" [doc machinePool; doc cluster] _ eq_refl eq_refl HF eq_refl)
    as [Hret Hout].
  split; [reflexivity|]. split; [reflexivity|]. split; [exact HF|].
  split; [exact Hne|]. split; [reflexivity|]. split; [exact Hret|].
  split; [exact (Hout Hne)|].
  etransitivity; [exact (Hout Hne)|reflexivity].
Defined.

Lemma order_and_separator_witness :
  (∀ ri data, kindMarshal ri = Ok data → data ≠ "")
  ∧ returned (fst (capaOn scenarioFlags "pools.yaml" NewCmdCAPA)) = Ok tt
  ∧ (∃ input docs encs,
       ReadAll (stdinOf "pools.yaml") = Ok input
       ∧ tableDecode bundles input = (docs, None)
       ∧ length encs = length docs
       ∧ Forall2 (encoded (capaContent SetMPConfiguration_spec scenarioFlags) kindMarshal)
           docs encs
       ∧ stdout (fst (capaOn scenarioFlags "pools.yaml" NewCmdCAPA))
         = String.concat ("---" +:+ String (Ascii.ascii_of_nat 10) "") encs)
  ∧ stdout (fst (capaOn scenarioFlags "pools.yaml" NewCmdCAPA))
    = "kind: MachinePool"
      +:+ String (Ascii.ascii_of_nat 10)
            ("---" +:+ String (Ascii.ascii_of_nat 10) ("kind: Cluster" +:+ String (Ascii.ascii_of_nat 10) ""))
  ∧ returned (capkOn "pools.yaml") = Ok tt
  ∧ (∃ input docs encs,
       ReadAll (stdinOf "pools.yaml") = Ok input
       ∧ tableDecode bundles input = (docs, None)
       ∧ length encs = length docs
       ∧ Forall2 (encoded capkContent kindMarshal) docs encs
       ∧ stdout (capkOn "pools.yaml")
         = String.concat ("---" +:+ String (Ascii.ascii_of_nat 10) "") encs)
  ∧ stdout (capkOn "pools.yaml")
    = "kind: MachinePool"
      +:+ String (Ascii.ascii_of_nat 10)
            ("---" +:+ String (Ascii.ascii_of_nat 10) ("kind: Cluster" +:+ String (Ascii.ascii_of_nat 10) "")).
Proof.
  destruct (order_and_separator (tableDecode bundles) kindMarshal SetMPConfiguration_spec
              scenarioFlags (stdinOf "pools.yaml") NewCmdCAPA kindMarshal_nonempty)
    as [Hcapa Hcapk].
  split; [exact kindMarshal_nonempty|].
  split; [reflexivity|].
  split; [apply Hcapa; reflexivity|].
  split; [reflexivity|].
  split; [reflexivity|].
  split; [apply Hcapk; reflexivity|].
  reflexivity.
Defined.

Lemma fail_fast_not_traversable_witness :
  (ReadAll (stdinOf "broken-cluster.yaml") = Ok "broken-cluster.yaml"
   ∧ tableDecode bundles "broken-cluster.yaml"
     = ([doc "Service"; clusterScalarMetadata], None)
   ∧ clusterScalarMetadata ∈ [doc "Service"; clusterScalarMetadata]
   ∧ blocked clusterScalarMetadata
       ["metadata"; "annotations"; controlplaneRoleAnnotation] ["metadata"]
   ∧ ["metadata"; "annotations"; controlplaneRoleAnnotation]
       ∈ capaTargets defaultFlags clusterScalarMetadata
   ∧ (∀ value, SetNestedField clusterScalarMetadata value
                 ["metadata"; "annotations"; controlplaneRoleAnnotation]
               = Err (NotAMap ["metadata"]))
   ∧ capaContent SetMPConfiguration_spec defaultFlags clusterScalarMetadata
     = Err (NotAMap ["metadata"])
   ∧ failedSilently (fst (capaOn defaultFlags "broken-cluster.yaml" NewCmdCAPA)))
  ∧ (ReadAll (stdinOf "broken-template.yaml") = Ok "broken-template.yaml"
     ∧ tableDecode bundles "broken-template.yaml" = ([templateScalar], None)
     ∧ templateScalar ∈ [templateScalar]
     ∧ blocked templateScalar
         ["spec"; "template"; "spec"; "virtualMachineBootstrapCheck"; "checkStrategy"]
         ["spec"; "template"]
     ∧ ["spec"; "template"; "spec"; "virtualMachineBootstrapCheck"; "checkStrategy"]
         ∈ capkTargets templateScalar
     ∧ capkContent templateScalar = Err (NotAMap ["spec"; "template"])
     ∧ failedSilently (capkOn "broken-template.yaml")).
Proof.
  assert (Hb1 : blocked clusterScalarMetadata
                  ["metadata"; "annotations"; controlplaneRoleAnnotation] ["metadata"]).
  { exists ["annotations"; controlplaneRoleAnnotation], (VString "production").
    split_and!; [reflexivity|discriminate|discriminate|reflexivity|reflexivity]. }
  assert (Hb2 : blocked templateScalar
                  ["spec"; "template"; "spec"; "virtualMachineBootstrapCheck";
                   "checkStrategy"] ["spec"; "template"]).
  { exists ["spec"; "virtualMachineBootstrapCheck"; "checkStrategy"], (VString "small").
    split_and!; [reflexivity|discriminate|discriminate|reflexivity|reflexivity]. }
  assert (Hin1 : clusterScalarMetadata ∈ [doc "Service"; clusterScalarMetadata])
    by (constructor 2; constructor 1).
  assert (Hin2 : templateScalar ∈ [templateScalar]) by constructor 1.
  assert (Ht1 : ["metadata"; "annotations"; controlplaneRoleAnnotation]
                  ∈ capaTargets defaultFlags clusterScalarMetadata)
    by (change (capaTargets defaultFlags clusterScalarMetadata)
          with [["metadata"; "annotations"; controlplaneRoleAnnotation]];
        constructor 1).
  assert (Ht2 : ["spec"; "template"; "spec"; "virtualMachineBootstrapCheck";
                 "checkStrategy"] ∈ capkTargets templateScalar)
    by (change (capkTargets templateScalar)
          with [["spec"; "template"; "spec"; "virtualMachineBootstrapCheck";
                 "checkStrategy"]];
        constructor 1).
  destruct (fail_fast_not_traversable (tableDecode bundles) kindMarshal
              SetMPConfiguration_spec defaultFlags (stdinOf "broken-cluster.yaml")
              NewCmdCAPA "broken-cluster.yaml" _ None _ _ _
              eq_refl eq_refl Hin1 Hb1) as (Hw1 & Hc1 & _).
  destruct (fail_fast_not_traversable (tableDecode bundles) kindMarshal
              SetMPConfiguration_spec defaultFlags (stdinOf "broken-template.yaml")
              NewCmdCAPA "broken-template.yaml" _ None _ _ _
              eq_refl eq_refl Hin2 Hb2) as (_ & _ & Hk2).
  destruct (Hc1 Ht1) as [Hc1a Hc1b]. destruct (Hk2 Ht2) as [Hk2a Hk2b].
  split; split_and!; try reflexivity; assumption.
Defined.

Lemma subtree_replaced_witness :
  (GetKind controlPlaneDoc = awsManagedControlPlane
   ∧ nonempty (vpc_cidr cidrFlags) = true
   ∧ getPath (VMap controlPlaneDoc) ["spec"; "network"; "cni"]
     = Some (VMap {[ "cniIngressRules" := VList [] ]})
   ∧ is_ok (capaContent SetMPConfiguration_spec cidrFlags controlPlaneDoc)
     = traversable controlPlaneDoc "spec"
   ∧ ∀ ri', capaContent SetMPConfiguration_spec cidrFlags controlPlaneDoc = Ok ri' →
       getPath (VMap ri') ["spec"; "network"]
         = Some (VMap {[ "vpc" := VMap {[ "cidrBlock" := VString (vpc_cidr cidrFlags) ]} ]})
       ∧ ∀ key, key ≠ "vpc" → getPath (VMap ri') ["spec"; "network"; key] = None)
  ∧ (GetKind machinePoolDoc = awsManagedMachinePool
     ∧ getPath (VMap machinePoolDoc) ["spec"; "scaling"; "desiredSize"] = Some (VInt 4)
     ∧ is_ok (capaContent SetMPConfiguration_spec defaultFlags machinePoolDoc)
       = traversable machinePoolDoc "spec"
     ∧ ∀ ri', capaContent SetMPConfiguration_spec defaultFlags machinePoolDoc = Ok ri' →
         getPath (VMap ri') ["spec"; "scaling"]
           = Some (VMap (<["minSize" := VInt (min_node_count defaultFlags)]>
                           (<["maxSize" := VInt (max_node_count defaultFlags)]> ∅)))
         ∧ ∀ key, key ≠ "minSize" → key ≠ "maxSize" →
             getPath (VMap ri') ["spec"; "scaling"; key] = None).
Proof.
  destruct (subtree_replaced SetMPConfiguration_spec cidrFlags controlPlaneDoc)
    as [Hcp _].
  destruct (subtree_replaced SetMPConfiguration_spec defaultFlags machinePoolDoc)
    as [_ Hmp].
  split.
  - split_and!; [reflexivity|reflexivity|reflexivity|..];
      apply (Hcp eq_refl eq_refl).
  - split_and!; [reflexivity|reflexivity|..]; apply (Hmp eq_refl).
Defined.

Lemma noop_stability_witness :
  ReadAll (stdinOf "control-plane.yaml") = Ok "control-plane.yaml"
  ∧ tableDecode bundles "control-plane.yaml"
    = ([doc awsManagedControlPlane; doc "Service"], None)
  ∧ Forall (fun ri => GetKind ri ≠ machinePool
                      ∧ GetKind ri ≠ awsManagedMachinePool
                      ∧ GetKind ri ≠ cluster)
      [doc awsManagedControlPlane; doc "Service"]
  ∧ Forall (fun ri => capaContent SetMPConfiguration_spec defaultFlags ri = Ok ri)
      [doc awsManagedControlPlane; doc "Service"]
  ∧ fst (capaOn defaultFlags "control-plane.yaml" NewCmdCAPA)
    = deliver (stdinOf "control-plane.yaml")
        (reencode kindMarshal [doc awsManagedControlPlane; doc "Service"] "")
  ∧ absent "KubevirtMachineTemplate" [doc awsManagedControlPlane; doc "Service"]
  ∧ Forall (fun ri => capkContent ri = Ok ri) [doc awsManagedControlPlane; doc "Service"]
  ∧ capkOn "control-plane.yaml"
    = deliver (stdinOf "control-plane.yaml")
        (reencode kindMarshal [doc awsManagedControlPlane; doc "Service"] "")
  ∧ GetKind machinePoolDoc = awsManagedMachinePool
  ∧ capaContent SetMPConfiguration_spec defaultFlags machinePoolDoc
    = managedMPScaling machinePoolDoc 1 6.
Proof.
  assert (Hkinds : Forall (fun ri => GetKind ri ≠ machinePool
                                     ∧ GetKind ri ≠ awsManagedMachinePool
                                     ∧ GetKind ri ≠ cluster)
                     [doc awsManagedControlPlane; doc "Service"]).
  { repeat constructor; rewrite GetKind_doc; discriminate. }
  assert (Hnone : absent "KubevirtMachineTemplate"
                    [doc awsManagedControlPlane; doc "Service"]).
  { repeat constructor; rewrite GetKind_doc; discriminate. }
  destruct (noop_stability (tableDecode bundles) kindMarshal SetMPConfiguration_spec
              (stdinOf "control-plane.yaml") NewCmdCAPA "control-plane.yaml"
              [doc awsManagedControlPlane; doc "Service"] eq_refl eq_refl)
    as (Hcapa & Hcapk & Hpool & _).
  destruct (Hcapa Hkinds) as [Hc1 Hc2]. destruct (Hcapk Hnone) as [Hk1 Hk2].
  split_and!;
    [reflexivity|reflexivity|exact Hkinds|exact Hc1|exact Hc2|exact Hnone
    |exact Hk1|exact Hk2|reflexivity|apply Hpool; reflexivity].
Defined.

Lemma cross_kind_gating_witness :
  keepsKind SetMPConfiguration_spec
  ∧ ReadAll (stdinOf "cluster.yaml") = Ok "cluster.yaml"
  ∧ tableDecode bundles "cluster.yaml" = ([doc cluster], None)
  ∧ absent awsManagedControlPlane [doc cluster]
  ∧ absent awsManagedMachinePool [doc cluster]
  ∧ routed (capaContent SetMPConfiguration_spec cidrAndPoolRole) kindMarshal
      [doc cluster] None
  ∧ (failedSilently (fst (capaOn cidrAndPoolRole "cluster.yaml" NewCmdCAPA))
     ∧ returned (fst (capaOn cidrAndPoolRole "cluster.yaml" NewCmdCAPA))
       = Err (ErrorsNew "failed to get AWSManagedControlPlane for cidr update"))
  ∧ (failedSilently (fst (capaOn controlPlaneRoleOnly "cluster.yaml" NewCmdCAPA))
     ∧ returned (fst (capaOn controlPlaneRoleOnly "cluster.yaml" NewCmdCAPA))
       = Err (ErrorsNew "failed to get AWSManagedControlPlane for role configuration"))
  ∧ (failedSilently (fst (capaOn poolRoleOnly "cluster.yaml" NewCmdCAPA))
     ∧ returned (fst (capaOn poolRoleOnly "cluster.yaml" NewCmdCAPA))
       = Err (ErrorsNew "failed to get AWSManagedMachinePool for role configuration"))
  ∧ (absent cluster [doc awsManagedControlPlane; doc "Service"]
     ∧ failedSilently (fst (capaOn controlPlaneRoleOnly "control-plane.yaml" NewCmdCAPA))).
Proof.
  assert (Hcp : absent awsManagedControlPlane [doc cluster]).
  { repeat constructor; rewrite GetKind_doc; discriminate. }
  assert (Hmp : absent awsManagedMachinePool [doc cluster]).
  { repeat constructor; rewrite GetKind_doc; discriminate. }
  assert (Hcl : absent cluster [doc awsManagedControlPlane; doc "Service"]).
  { repeat constructor; rewrite GetKind_doc; discriminate. }
  assert (Hrouted : ∀ fl, managedcp_role fl = "" ∨ managedcp_role fl = "eks-controlplane" →
            routed (capaContent SetMPConfiguration_spec fl) kindMarshal [doc cluster] None).
  { intros fl Hrole. split; [reflexivity|]. simpl.
    rewrite content_cluster by apply GetKind_doc.
    destruct Hrole as [-> | ->]; reflexivity. }
  pose proof (cross_kind_gating (tableDecode bundles) kindMarshal SetMPConfiguration_spec
                cidrAndPoolRole (stdinOf "cluster.yaml") "cluster.yaml" [doc cluster] None
                SetMPConfiguration_spec_keepsKind eq_refl eq_refl) as (Hcidr & _ & _ & _).
  pose proof (cross_kind_gating (tableDecode bundles) kindMarshal SetMPConfiguration_spec
                controlPlaneRoleOnly (stdinOf "cluster.yaml") "cluster.yaml" [doc cluster]
                None SetMPConfiguration_spec_keepsKind eq_refl eq_refl)
    as (_ & Hrole & _ & _).
  pose proof (cross_kind_gating (tableDecode bundles) kindMarshal SetMPConfiguration_spec
                poolRoleOnly (stdinOf "cluster.yaml") "cluster.yaml" [doc cluster] None
                SetMPConfiguration_spec_keepsKind eq_refl eq_refl) as (_ & _ & Hpool & _).
  pose proof (cross_kind_gating (tableDecode bundles) kindMarshal SetMPConfiguration_spec
                controlPlaneRoleOnly (stdinOf "control-plane.yaml") "control-plane.yaml"
                [doc awsManagedControlPlane; doc "Service"] None
                SetMPConfiguration_spec_keepsKind eq_refl eq_refl)
    as (_ & _ & _ & Hcluster).
  destruct (Hcidr eq_refl Hcp) as [Hf1 Hr1].
  destruct (Hrole eq_refl Hcp) as [Hf2 Hr2].
  destruct (Hpool eq_refl Hmp) as [Hf3 Hr3].
  split; [exact SetMPConfiguration_spec_keepsKind|].
  split; [reflexivity|]. split; [reflexivity|].
  split; [exact Hcp|]. split; [exact Hmp|].
  split; [apply Hrouted; by left|].
  split; [|split; [|split]].
  - split; [exact Hf1|]. apply Hr1, Hrouted. by left.
  - split; [exact Hf2|]. apply Hr2, Hrouted. by right.
  - split; [exact Hf3|].
    apply Hr3; [apply Hrouted; by left|by right|by compute].
  - split; [exact Hcl|]. exact (Hcluster eq_refl Hcl).
Defined.

(** * Further properties *)

(** ** Reading back what the writer wrote *)

Section Writer.

Implicit Types (m obj : Obj) (v value : Value) (fields seen : list string).

Lemma setNested_read fields : ∀ seen m value m',
  setNestedFieldNoCopy seen m value fields = Ok m' →
  getPath (VMap m') fields = Some value.
Proof.
  induction fields as [|field rest IH]; intros seen m value m'; [done|].
  destruct rest as [|next rest].
  - rewrite setNested_last. intros [= <-]. simpl. by rewrite lookup_insert_eq.
  - rewrite setNested_step.
    destruct (m !! field) as [[]|]; try done;
      match goal with
      | |- context [setNestedFieldNoCopy ?s ?m0 ?v ?f] =>
          destruct (setNestedFieldNoCopy s m0 v f) as [sub| |] eqn:Hsub; try done
      end;
      intros [= <-]; apply IH in Hsub;
      change (getPath (VMap (<[field := VMap sub]> m)) (field :: next :: rest))
        with (match <[field := VMap sub]> m !! field with
              | Some v' => getPath v' (next :: rest)
              | None => None
              end);
      by rewrite lookup_insert_eq.
Qed.

(** Writing a value where it already is changes nothing. *)
Lemma setNested_same fields : ∀ seen m value,
  fields ≠ [] → getPath (VMap m) fields = Some value →
  setNestedFieldNoCopy seen m value fields = Ok m.
Proof.
  induction fields as [|field rest IH]; intros seen m value Hne Hget; [done|].
  simpl in Hget. destruct (m !! field) as [v1|] eqn:Hm; [|done].
  destruct rest as [|next rest].
  - simpl in Hget. injection Hget as ->. rewrite setNested_last.
    by rewrite insert_id.
  - rewrite setNested_step, Hm.
    destruct v1 as [| | | | | |sub]; try done.
    rewrite (IH (seen ++ [field]) sub value) by done. simpl.
    by rewrite insert_id.
Qed.

(** A second write through the same path forgets the first. *)
Lemma setNested_last_wins fields : ∀ seen seen' m v1 v2 m1,
  setNestedFieldNoCopy seen m v1 fields = Ok m1 →
  setNestedFieldNoCopy seen' m1 v2 fields = setNestedFieldNoCopy seen' m v2 fields.
Proof.
  induction fields as [|field rest IH]; intros seen seen' m v1 v2 m1; [done|].
  destruct rest as [|next rest].
  - rewrite !setNested_last. intros [= <-]. by rewrite insert_insert_eq.
  - rewrite !setNested_step.
    destruct (m !! field) as [[]|] eqn:Hm; try done;
      match goal with
      | |- context [setNestedFieldNoCopy (seen ++ [field]) ?m0 v1 ?f] =>
          destruct (setNestedFieldNoCopy (seen ++ [field]) m0 v1 f)
            as [sub| |] eqn:Hsub; try done
      end;
      intros [= <-]; rewrite lookup_insert_eq;
      rewrite (IH _ (seen' ++ [field]) _ _ v2 _ Hsub);
      match goal with
      | |- context [setNestedFieldNoCopy ?s ?m0 v2 ?f] =>
          destruct (setNestedFieldNoCopy s m0 v2 f); simpl; try done
      end;
      by rewrite insert_insert_eq.
Qed.

(** A write leaves alone whatever lies on a diverging path. *)
Lemma setNested_diverging fields : ∀ seen m value m' q,
  setNestedFieldNoCopy seen m value fields = Ok m' →
  diverges fields q = true →
  getPath (VMap m') q = getPath (VMap m) q.
Proof.
  induction fields as [|field rest IH]; intros seen m value m' q Hset Hdiv; [done|].
  destruct q as [|b q]; [done|]. simpl in Hdiv.
  destruct (String.eqb_spec field b) as [<-|Hne].
  - destruct rest as [|next rest]; [by destruct q|].
    rewrite setNested_step in Hset.
    destruct (m !! field) as [[]|] eqn:Hm; try done;
      match type of Hset with
      | context [setNestedFieldNoCopy ?s ?m0 ?v ?f] =>
          destruct (setNestedFieldNoCopy s m0 v f) as [sub| |] eqn:Hsub; try done
      end;
      injection Hset as <-; simpl; rewrite lookup_insert_eq, Hm;
      rewrite (IH _ _ _ _ q Hsub Hdiv); [done|].
    destruct q as [|b q]; [done|]. simpl. by rewrite lookup_empty.
  - simpl. by rewrite (setNested_frame _ _ _ _ _ _ b Hset).
Qed.

(** The only error is the not-a-map error, at a blocked key. *)
Lemma setNested_err fields : ∀ seen m value e,
  setNestedFieldNoCopy seen m value fields = Err e →
  ∃ upto, e = NotAMap (seen ++ upto) ∧ blocked m fields upto.
Proof.
  induction fields as [|field rest IH]; intros seen m value e; [done|].
  destruct rest as [|next rest]; [done|].
  rewrite setNested_step.
  destruct (m !! field) as [v1|] eqn:Hm.
  - destruct v1 as [| | | | | |sub];
      try (intros [= <-]; exists [field]; split; [done|];
           eexists (next :: rest), _; split_and!; [done|done|done| |];
           [simpl; rewrite Hm; reflexivity|done]).
    destruct (setNestedFieldNoCopy (seen ++ [field]) sub value (next :: rest))
      as [s| |] eqn:Hsub; try done.
    intros [= <-]. apply IH in Hsub as (upto & -> & rest' & v & Hp & Hu & Hr & Hg & Hv).
    exists (field :: upto). split; [by rewrite <- app_assoc|].
    exists rest', v. split_and!; [by rewrite Hp|done|done| |done].
    simpl. by rewrite Hm.
  - destruct (setNestedFieldNoCopy (seen ++ [field]) ∅ value (next :: rest))
      as [s| |] eqn:Hsub; try done.
    intros [= <-]. apply IH in Hsub as (upto & _ & rest' & v & _ & Hu & _ & Hg & _).
    destruct upto as [|u upto]; [done|]. simpl in Hg. by rewrite lookup_empty in Hg.
Qed.

Lemma SetNestedField_read obj value fields obj' :
  SetNestedField obj value fields = Ok obj' → getPath (VMap obj') fields = Some value.
Proof. apply setNested_read. Qed.

Lemma SetNestedField_same obj value fields :
  fields ≠ [] → getPath (VMap obj) fields = Some value →
  SetNestedField obj value fields = Ok obj.
Proof. apply setNested_same. Qed.

Lemma SetNestedField_last_wins obj v1 v2 fields obj1 :
  SetNestedField obj v1 fields = Ok obj1 →
  SetNestedField obj1 v2 fields = SetNestedField obj v2 fields.
Proof. apply setNested_last_wins. Qed.

Lemma SetNestedField_diverging obj value fields obj' q :
  SetNestedField obj value fields = Ok obj' → diverges fields q = true →
  getPath (VMap obj') q = getPath (VMap obj) q.
Proof. apply setNested_diverging. Qed.

Lemma SetNestedField_err obj value fields e :
  SetNestedField obj value fields = Err e →
  ∃ upto, e = NotAMap upto ∧ blocked obj fields upto.
Proof. intros H. by apply setNested_err in H. Qed.

End Writer.

(** ** Rule tables *)

Section Tables.

Implicit Types (ws : list (list string * Value)) (ri : Obj).

Lemma applyWrites_frame ws : ∀ ri ri' q,
  applyWrites ws ri = Ok ri' →
  (∀ path value, (path, value) ∈ ws → diverges path q = true) →
  getPath (VMap ri') q = getPath (VMap ri) q.
Proof.
  induction ws as [|[path value] rest IH]; intros ri ri' q; simpl.
  - by intros [= <-].
  - destruct (SetNestedField ri value path) as [r1| |] eqn:H1; simpl; [|done..].
    intros Hrest Hdiv.
    rewrite (IH r1 ri' q Hrest); [|intros p v Hin; apply (Hdiv p v); by right].
    apply (SetNestedField_diverging _ _ _ _ _ H1). apply (Hdiv path value). by left.
Qed.

Lemma apart_cons path paths q :
  apart (path :: paths) = true → q ∈ paths →
  diverges path q = true ∧ diverges q path = true.
Proof.
  simpl. intros [Hall _]%andb_true_iff Hin.
  rewrite forallb_forall in Hall. apply list_elem_of_In in Hin.
  by apply andb_true_iff, Hall.
Qed.

Lemma applyWrites_read ws : ∀ ri ri' path value,
  applyWrites ws ri = Ok ri' → apart (map fst ws) = true →
  (path, value) ∈ ws → getPath (VMap ri') path = Some value.
Proof.
  induction ws as [|[p v] rest IH]; intros ri ri' path value; simpl.
  - intros _ _ Hin. by apply elem_of_nil in Hin.
  - destruct (SetNestedField ri v p) as [r1| |] eqn:H1; simpl; [|done..].
    intros Hrest Hapart [[= -> ->]|Hin]%elem_of_cons.
    + rewrite (applyWrites_frame _ _ _ _ Hrest).
      * by apply SetNestedField_read in H1.
      * intros q w Hq.
        apply (apart_cons p (map fst rest) q Hapart).
        apply list_elem_of_fmap. by exists (q, w).
    + apply (IH r1 ri' path value Hrest); [|done].
      simpl in Hapart. by apply andb_true_iff in Hapart as [_ ?].
Qed.

Lemma applyWrites_same ws : ∀ ri,
  (∀ path value, (path, value) ∈ ws →
                 path ≠ [] ∧ getPath (VMap ri) path = Some value) →
  applyWrites ws ri = Ok ri.
Proof.
  induction ws as [|[p v] rest IH]; intros ri Hall; simpl; [done|].
  destruct (Hall p v) as [Hne Hget]; [by left|].
  rewrite (SetNestedField_same _ _ _ Hne Hget). simpl.
  apply IH. intros path value Hin. apply Hall. by right.
Qed.

Lemma applyWrites_kind ws ri ri' :
  applyWrites ws ri = Ok ri' →
  (∀ path value, (path, value) ∈ ws → diverges path ["kind"] = true) →
  GetKind ri' = GetKind ri.
Proof.
  intros Hrun Hdiv.
  pose proof (applyWrites_frame ws ri ri' ["kind"] Hrun Hdiv) as Hk.
  simpl in Hk. unfold GetKind.
  by destruct (ri' !! "kind"), (ri !! "kind"); simplify_eq.
Qed.

End Tables.

(** ** The closures as rule tables *)

Section EditsAsTables.

Variable SetMPConfiguration : Obj -> Z -> Z -> Result Obj.
Variable fl : Flags.

Lemma capaWrites_targets ri : map fst (capaWrites fl ri) = capaTargets fl ri.
Proof.
  unfold capaWrites, capaTargets.
  destruct (String.eqb _ awsManagedControlPlane).
  { by destruct (nonempty (vpc_cidr fl)), (nonempty (managedcp_role fl)). }
  destruct (String.eqb _ awsManagedMachinePool).
  { by destruct (nonempty (managedmp_role fl)). }
  by destruct (String.eqb _ cluster).
Qed.

Lemma capaWrites_apart ri : apart (map fst (capaWrites fl ri)) = true.
Proof.
  unfold capaWrites.
  destruct (String.eqb _ awsManagedControlPlane).
  { by destruct (nonempty (vpc_cidr fl)), (nonempty (managedcp_role fl)). }
  destruct (String.eqb _ awsManagedMachinePool).
  { by destruct (nonempty (managedmp_role fl)). }
  by destruct (String.eqb _ cluster).
Qed.

Lemma capaWrites_paths ri path value :
  (path, value) ∈ capaWrites fl ri → path ≠ [] ∧ diverges path ["kind"] = true.
Proof.
  unfold capaWrites.
  destruct (String.eqb _ awsManagedControlPlane).
  { destruct (nonempty (vpc_cidr fl)), (nonempty (managedcp_role fl));
      intros Hin; among Hin; by injection Hin as -> _. }
  destruct (String.eqb _ awsManagedMachinePool).
  { destruct (nonempty (managedmp_role fl));
      intros Hin; among Hin; by injection Hin as -> _. }
  destruct (String.eqb _ cluster); intros Hin; among Hin; by injection Hin as -> _.
Qed.

(** Outside [MachinePool], the capa closure applies its rule table. *)
Lemma content_as_writes ri :
  GetKind ri ≠ machinePool →
  capaContent SetMPConfiguration fl ri = applyWrites (capaWrites fl ri) ri.
Proof.
  intros Hmp. unfold capaWrites.
  destruct (String.eqb_spec (GetKind ri) awsManagedControlPlane) as [Hk|H1].
  { rewrite (content_controlPlane _ _ _ Hk).
    unfold cpRules, managedCPCIDR, managedCPRole, SetNestedMap.
    destruct (nonempty (vpc_cidr fl)), (nonempty (managedcp_role fl)); simpl;
      try done;
      repeat (destruct (SetNestedField _ _ _); simpl; try done). }
  destruct (String.eqb_spec (GetKind ri) awsManagedMachinePool) as [Hk|H2].
  { rewrite (content_managedMachinePool _ _ _ Hk).
    unfold mpRules, managedMPScaling, managedMPRole, SetNestedMap.
    destruct (nonempty (managedmp_role fl)); simpl; try done;
      repeat (destruct (SetNestedField _ _ _); simpl; try done). }
  destruct (String.eqb_spec (GetKind ri) cluster) as [Hk|H3].
  { rewrite (content_cluster _ _ _ Hk). unfold clusterAnnotations. simpl.
    by destruct (SetNestedField ri _ _). }
  by apply content_other.
Qed.

Lemma capkContent_as_writes ri : capkContent ri = applyWrites (capkWrites ri) ri.
Proof.
  unfold capkContent, capkWrites, setBootstrapCheckStrategy, checkStrategyPath.
  destruct (String.eqb _ _); simpl; [|done].
  by destruct (SetNestedField ri _ _).
Qed.

Lemma capkWrites_paths ri path value :
  (path, value) ∈ capkWrites ri →
  path = checkStrategyPath ∧ value = VString "none"
  ∧ GetKind ri = "KubevirtMachineTemplate".
Proof.
  unfold capkWrites.
  destruct (String.eqb_spec (GetKind ri) "KubevirtMachineTemplate");
    intros Hin; among Hin. by injection Hin as -> ->.
Qed.

Lemma capaContent_kind ri ri' :
  keepsKind SetMPConfiguration →
  capaContent SetMPConfiguration fl ri = Ok ri' → GetKind ri' = GetKind ri.
Proof.
  intros Hkeep.
  destruct (String.eqb_spec (GetKind ri) machinePool) as [Hk|Hk].
  - unfold capaContent.
    rewrite capaEdit_machinePool; [|intros ?; apply Hkeep|done]. apply Hkeep.
  - rewrite (content_as_writes _ Hk). intros Hrun.
    apply (applyWrites_kind _ _ _ Hrun). intros p v Hin.
    by apply capaWrites_paths in Hin as [_ ?].
Qed.

Lemma capkContent_kind ri ri' : capkContent ri = Ok ri' → GetKind ri' = GetKind ri.
Proof.
  rewrite capkContent_as_writes. intros Hrun.
  apply (applyWrites_kind _ _ _ Hrun). intros p v Hin.
  by apply capkWrites_paths in Hin as (-> & _ & _).
Qed.

Lemma capaWrites_by_kind ri ri' :
  GetKind ri' = GetKind ri → capaWrites fl ri' = capaWrites fl ri.
Proof. unfold capaWrites. by intros ->. Qed.

Lemma capkWrites_by_kind ri ri' :
  GetKind ri' = GetKind ri → capkWrites ri' = capkWrites ri.
Proof. unfold capkWrites. by intros ->. Qed.

Lemma capaWrites_machinePool ri : GetKind ri = machinePool → capaWrites fl ri = [].
Proof. unfold capaWrites. by intros ->. Qed.

(** X1. Read-back: after a successful edit, every path of the rule table
    of the document's kind holds the value the rule stores there: the CIDR
    map and the role of a control plane, the bounds and the role of a
    managed machine pool, the annotation of a cluster, and the check
    strategy ["none"] of a KubeVirt machine template. *)
Theorem edits_read_back ri ri' path value :
  (capaContent SetMPConfiguration fl ri = Ok ri' →
   (path, value) ∈ capaWrites fl ri →
   getPath (VMap ri') path = Some value)
  ∧ (capkContent ri = Ok ri' →
     (path, value) ∈ capkWrites ri →
     getPath (VMap ri') path = Some value).
Proof.
  split.
  - intros Hrun Hin.
    destruct (String.eqb_spec (GetKind ri) machinePool) as [Hk|Hk].
    { rewrite (capaWrites_machinePool _ Hk) in Hin. by apply elem_of_nil in Hin. }
    rewrite (content_as_writes _ Hk) in Hrun.
    exact (applyWrites_read _ _ _ _ _ Hrun (capaWrites_apart ri) Hin).
  - intros Hrun Hin. rewrite capkContent_as_writes in Hrun.
    apply (applyWrites_read _ _ _ _ _ Hrun); [|done].
    unfold capkWrites. by destruct (String.eqb _ _).
Qed.

(** X2. Frame: a successful edit changes nothing on a path that diverges
    from every path of the document's rule table; other top-level keys,
    other fields of [spec] and other annotations stay as they were. *)
Theorem edits_frame ri ri' q :
  (GetKind ri ≠ machinePool →
   capaContent SetMPConfiguration fl ri = Ok ri' →
   (∀ path, path ∈ capaTargets fl ri → diverges path q = true) →
   getPath (VMap ri') q = getPath (VMap ri) q)
  ∧ (capkContent ri = Ok ri' →
     diverges checkStrategyPath q = true →
     getPath (VMap ri') q = getPath (VMap ri) q).
Proof.
  split.
  - intros Hk Hrun Hdiv. rewrite (content_as_writes _ Hk) in Hrun.
    apply (applyWrites_frame _ _ _ _ Hrun). intros p v Hin. apply Hdiv.
    rewrite <- capaWrites_targets. apply list_elem_of_fmap. by exists (p, v).
  - intros Hrun Hdiv. rewrite capkContent_as_writes in Hrun.
    apply (applyWrites_frame _ _ _ _ Hrun). intros p v Hin.
    by apply capkWrites_paths in Hin as (-> & _ & _).
Qed.

Lemma SetNestedField_no_panic (obj : Obj) value fields :
  fields ≠ [] → SetNestedField obj value fields ≠ Panic.
Proof. intros Hne. by apply setNested_no_panic. Qed.

Lemma second_write_ok (ri : Obj) v1 v2 a b c r1 :
  SetNestedField ri v1 [a; b] = Ok r1 → is_ok (SetNestedField r1 v2 [a; c]) = true.
Proof. intros H1. by rewrite write_two_ok, (write_two_traversable _ _ _ _ _ H1). Qed.

(** Two guarded writes under the same first key fail only at that key of
    the document they start from. *)
Lemma two_writes_err (ri : Obj) (b1 b2 : bool) v1 v2 a k1 k2 :
  let run :=
    (let? r := (if b1 then SetNestedField ri v1 [a; k1] else Ok ri) in
     if b2 then SetNestedField r v2 [a; k2] else Ok r) in
  run ≠ Panic
  ∧ ∀ e, run = Err e →
      e = NotAMap [a]
      ∧ blocked ri [a; if b1 then k1 else k2] [a].
Proof.
  assert (Hblocked : ∀ v k e, SetNestedField ri v [a; k] = Err e →
            e = NotAMap [a] ∧ blocked ri [a; k] [a]).
  { intros v k e He. apply SetNestedField_err in He as (upto & -> & Hb).
    destruct (blocked_two _ _ _ _ Hb) as [-> _]. done. }
  assert (Hnp : ∀ obj v k, SetNestedField obj v [a; k] ≠ Panic)
    by (intros; by apply SetNestedField_no_panic).
  simpl. destruct b1; simpl.
  - destruct (SetNestedField ri v1 [a; k1]) as [r1| |] eqn:H1; simpl.
    + destruct b2; [|done].
      pose proof (second_write_ok _ _ v2 _ _ k2 _ H1) as Hok.
      by destruct (SetNestedField r1 v2 [a; k2]).
    + split; [done|]. intros e' [= <-]. by apply (Hblocked v1 k1).
    + by destruct (Hnp ri v1 k1).
  - destruct b2; [|done]. split; [apply Hnp|]. intros e. apply Hblocked.
Qed.

(** X3. The only failure of an edit is the not-a-map error: outside
    [MachinePool], the capa closure never panics, and when it returns an
    error, a path of the document's rule table is blocked in the document
    as decoded and the error names the path up to the blocking key.  The
    same holds of the capk closure. *)
Theorem edits_fail_only_when_blocked ri :
  (GetKind ri ≠ machinePool →
   capaContent SetMPConfiguration fl ri ≠ Panic
   ∧ ∀ e, capaContent SetMPConfiguration fl ri = Err e →
       ∃ path upto, path ∈ capaTargets fl ri ∧ blocked ri path upto
                    ∧ e = NotAMap upto)
  ∧ (capkContent ri ≠ Panic
     ∧ ∀ e, capkContent ri = Err e →
         GetKind ri = "KubevirtMachineTemplate"
         ∧ ∃ upto, blocked ri checkStrategyPath upto ∧ e = NotAMap upto).
Proof.
  split.
  - intros Hmp. unfold capaTargets.
    destruct (String.eqb_spec (GetKind ri) awsManagedControlPlane) as [Hk|H1].
    { rewrite (content_controlPlane _ _ _ Hk).
      unfold cpRules, managedCPCIDR, managedCPRole, SetNestedMap.
      destruct (two_writes_err ri (nonempty (vpc_cidr fl))
                  (nonempty (managedcp_role fl))
                  (VMap {[ "vpc" := VMap {[ "cidrBlock" := VString (vpc_cidr fl) ]} ]})
                  (VString (managedcp_role fl)) "spec" "network" "roleName")
        as [Hnp Herr].
      split; [exact Hnp|]. intros e He. destruct (Herr e He) as [-> Hb].
      destruct (nonempty (vpc_cidr fl)) eqn:Hc.
      - exists ["spec"; "network"], ["spec"]. split_and!; [by left|done|done].
      - destruct (nonempty (managedcp_role fl)) eqn:Hr; [|done].
        exists ["spec"; "roleName"], ["spec"]. split_and!; [by left|done|done]. }
    destruct (String.eqb_spec (GetKind ri) awsManagedMachinePool) as [Hk|H2].
    { rewrite (content_managedMachinePool _ _ _ Hk).
      unfold mpRules, managedMPScaling, managedMPRole, SetNestedMap.
      destruct (two_writes_err ri true (nonempty (managedmp_role fl))
                  (VMap (<["minSize" := VInt (min_node_count fl)]>
                           (<["maxSize" := VInt (max_node_count fl)]> ∅)))
                  (VString (managedmp_role fl)) "spec" "scaling" "roleName")
        as [Hnp Herr].
      split; [exact Hnp|]. intros e He. destruct (Herr e He) as [-> Hb].
      exists ["spec"; "scaling"], ["spec"]. split_and!; [by left|done|done]. }
    destruct (String.eqb_spec (GetKind ri) cluster) as [Hk|H3].
    { rewrite (content_cluster _ _ _ Hk). unfold clusterAnnotations.
      split; [by apply SetNestedField_no_panic|].
      intros e (upto & -> & Hb)%SetNestedField_err.
      exists ["metadata"; "annotations"; controlplaneRoleAnnotation], upto.
      split_and!; [by left|done|done]. }
    by rewrite content_other.
  - unfold capkContent, setBootstrapCheckStrategy.
    destruct (String.eqb_spec (GetKind ri) "KubevirtMachineTemplate") as [Hk|Hk];
      [|done].
    split; [by apply SetNestedField_no_panic|].
    intros e (upto & -> & Hb)%SetNestedField_err. split; [done|]. by exists upto.
Qed.

(** X4. Idempotence: editing an edited document again, with the same
    flags, gives the same document; the filter can be run over its own
    output. *)
Theorem edits_idempotent ri ri' :
  (GetKind ri ≠ machinePool →
   capaContent SetMPConfiguration fl ri = Ok ri' →
   capaContent SetMPConfiguration fl ri' = Ok ri')
  ∧ (capkContent ri = Ok ri' → capkContent ri' = Ok ri').
Proof.
  split.
  - intros Hk Hrun. rewrite (content_as_writes _ Hk) in Hrun.
    assert (Hkind : GetKind ri' = GetKind ri).
    { apply (applyWrites_kind _ _ _ Hrun). intros p v Hin.
      by apply capaWrites_paths in Hin as [_ ?]. }
    rewrite content_as_writes by (by rewrite Hkind).
    rewrite (capaWrites_by_kind _ _ Hkind).
    apply applyWrites_same. intros p v Hin. split.
    + by apply capaWrites_paths in Hin as [? _].
    + exact (applyWrites_read _ _ _ _ _ Hrun (capaWrites_apart ri) Hin).
  - rewrite !capkContent_as_writes. intros Hrun.
    assert (Hkind : GetKind ri' = GetKind ri).
    { apply (applyWrites_kind _ _ _ Hrun). intros p v Hin.
      by apply capkWrites_paths in Hin as (-> & _ & _). }
    rewrite (capkWrites_by_kind _ _ Hkind).
    apply applyWrites_same. intros p v Hin. split.
    + by apply capkWrites_paths in Hin as (-> & _ & _).
    + apply (applyWrites_read _ _ _ _ _ Hrun); [|done].
      unfold capkWrites. by destruct (String.eqb _ _).
Qed.

(** X9. The edits never change the kind of a document (for capa, as long
    as [SetMPConfiguration] does not). *)
Theorem edits_keep_kind ri ri' :
  (keepsKind SetMPConfiguration →
   capaContent SetMPConfiguration fl ri = Ok ri' → GetKind ri' = GetKind ri)
  ∧ (capkContent ri = Ok ri' → GetKind ri' = GetKind ri).
Proof. split; [apply capaContent_kind|apply capkContent_kind]. Qed.

End EditsAsTables.

(** X5. Last write wins: applying a rule to a document the same rule has
    already edited gives what applying it to the original document gives;
    a second run with another CIDR, role or pair of bounds leaves no trace
    of the first. *)
Theorem rules_last_write_wins (ri r1 : Obj) :
  (∀ c1 c2, managedCPCIDR ri c1 = Ok r1 → managedCPCIDR r1 c2 = managedCPCIDR ri c2)
  ∧ (∀ n1 n2, managedCPRole ri n1 = Ok r1 → managedCPRole r1 n2 = managedCPRole ri n2)
  ∧ (∀ lo1 hi1 lo2 hi2, managedMPScaling ri lo1 hi1 = Ok r1 →
       managedMPScaling r1 lo2 hi2 = managedMPScaling ri lo2 hi2)
  ∧ (∀ n1 n2, managedMPRole ri n1 = Ok r1 → managedMPRole r1 n2 = managedMPRole ri n2)
  ∧ (∀ n1 n2, clusterAnnotations ri n1 = Ok r1 →
       clusterAnnotations r1 n2 = clusterAnnotations ri n2).
Proof.
  unfold managedCPCIDR, managedCPRole, managedMPScaling, managedMPRole,
    clusterAnnotations, SetNestedMap.
  split_and!; intros; by eapply SetNestedField_last_wins.
Qed.

(** ** What [validation] asks *)

Lemma nonempty_false s : nonempty s = false ↔ s = "".
Proof.
  unfold nonempty. rewrite negb_false_iff. apply String.eqb_eq.
Qed.

Lemma validation_None h : validation h = None ↔ requirementsMet h.
Proof.
  unfold validation, requirementsMet.
  rewrite <- !nonempty_false.
  destruct (wasFound (isFound h) awsManagedControlPlane),
    (wasFound (isFound h) awsManagedMachinePool),
    (wasFound (isFound h) cluster),
    (nonempty (vpcCidr h)), (nonempty (managedControlplaneRole h)),
    (nonempty (managedMachinepoolRole h)),
    (Z.gtb_spec (minCount h) (maxCount h)); simpl;
    intuition (try congruence; try lia).
Qed.

(** X6. [validation] accepts a run exactly when: a control plane was
    found or neither the CIDR nor the control-plane role is requested; the
    lower bound does not exceed the upper bound; a managed machine pool
    was found or no machine-pool role is requested; and a cluster was
    found or no control-plane role is requested.  Equal, zero and
    negative bounds are accepted. *)
Theorem validation_passes_iff h : validation h = None ↔ requirementsMet h.
Proof. apply validation_None. Qed.

Lemma validation_three_kinds h h' :
  managedControlplaneRole h' = managedControlplaneRole h →
  managedMachinepoolRole h' = managedMachinepoolRole h →
  vpcCidr h' = vpcCidr h → minCount h' = minCount h → maxCount h' = maxCount h →
  wasFound (isFound h') awsManagedControlPlane
    = wasFound (isFound h) awsManagedControlPlane →
  wasFound (isFound h') awsManagedMachinePool
    = wasFound (isFound h) awsManagedMachinePool →
  wasFound (isFound h') cluster = wasFound (isFound h) cluster →
  validation h' = validation h.
Proof.
  unfold validation. by intros -> -> -> -> -> -> -> ->.
Qed.

(** X7. [validation] looks at three entries of [isFound] only: two maps
    that agree on [AWSManagedControlPlane], [AWSManagedMachinePool] and
    [Cluster] get the same verdict.  The [MachinePool] entry the closure
    records is never read. *)
Theorem validation_reads_three_kinds fl (m m' : gmap string bool) :
  wasFound m' awsManagedControlPlane = wasFound m awsManagedControlPlane →
  wasFound m' awsManagedMachinePool = wasFound m awsManagedMachinePool →
  wasFound m' cluster = wasFound m cluster →
  validation (helperOf fl m') = validation (helperOf fl m).
Proof. intros. by apply validation_three_kinds. Qed.

Lemma validation_more fl (m m' : gmap string bool) :
  (∀ kind, wasFound m kind = true → wasFound m' kind = true) →
  validation (helperOf fl m) = None → validation (helperOf fl m') = None.
Proof.
  intros Hmore. rewrite !validation_None. unfold requirementsMet. simpl.
  intros (H1 & H2 & H3 & H4). split_and!; [|done| |].
  - destruct H1 as [?|?]; [left; by apply Hmore|by right].
  - destruct H3 as [?|?]; [by left|right; by apply Hmore].
  - destruct H4 as [?|?]; [by left|right; by apply Hmore].
Qed.

(** X8. Finding more kinds never turns an accepted run into a rejected
    one. *)
Theorem validation_monotone fl (m m' : gmap string bool) :
  (∀ kind, wasFound m kind = true → wasFound m' kind = true) →
  validation (helperOf fl m) = None → validation (helperOf fl m') = None.
Proof. apply validation_more. Qed.

(** ** Passes over a stream *)

Section Passes.

Variable Decode : string -> list Obj * option error.
Variable Marshal : Obj -> Result string.
Variable SetMPConfiguration : Obj -> Z -> Z -> Result Obj.

Lemma render_passes edit docs : ∀ buf,
  is_ok (render edit Marshal docs buf) = forallb (passes edit Marshal) docs.
Proof.
  induction docs as [|ri rest IH]; intros buf; simpl; [done|].
  unfold passes at 1.
  destruct (edit ri) as [ri'| |]; simpl; [|done..].
  destruct (Marshal ri'); simpl; [apply IH|done..].
Qed.

Lemma processed_all edit docs :
  forallb (passes edit Marshal) docs = true → processed edit Marshal docs = docs.
Proof.
  induction docs as [|ri rest IH]; simpl; [done|].
  intros [-> Hrest]%andb_true_iff. by rewrite IH.
Qed.

(** The first document that is not edited or not encoded gives the error
    of the pass. *)
Lemma render_first_failure edit pre ri post e : ∀ buf,
  forallb (passes edit Marshal) pre = true →
  (let? ri' := edit ri in Marshal ri') = Err e →
  render edit Marshal (pre ++ ri :: post) buf = Err e.
Proof.
  induction pre as [|d pre IH]; intros buf; simpl.
  - intros _ He.
    destruct (edit ri) as [ri'| |]; simpl in *; [|done..].
    by destruct (Marshal ri').
  - intros [Hd Hpre]%andb_true_iff He. unfold passes in Hd.
    destruct (edit d) as [d'| |]; simpl in *; [|done..].
    destruct (Marshal d'); simpl in *; [|done..]. by apply IH.
Qed.

Lemma forallb_Permutation {A} (f : A → bool) l l' :
  l ≡ₚ l' → forallb f l = forallb f l'.
Proof.
  induction 1 as [|x l l' _ IH|x y l|l l' l'' _ IH1 _ IH2]; simpl;
    [done|by rewrite IH|by destruct (f x), (f y)|by rewrite IH1].
Qed.

Lemma existsb_Permutation {A} (f : A → bool) l l' :
  l ≡ₚ l' → existsb f l = existsb f l'.
Proof.
  induction 1 as [|x l l' _ IH|x y l|l l' l'' _ IH1 _ IH2]; simpl;
    [done|by rewrite IH|by destruct (f x), (f y)|by rewrite IH1].
Qed.

Section Kinds.

Hypothesis Hkeep : keepsKind SetMPConfiguration.

Lemma tracked_cases kind :
  tracked kind = true →
  kind = awsManagedControlPlane ∨ kind = machinePool
  ∨ kind = awsManagedMachinePool ∨ kind = cluster.
Proof.
  unfold tracked. rewrite !orb_true_iff, !String.eqb_eq. tauto.
Qed.

Lemma marks_explicit fl ri :
  capaMarks SetMPConfiguration fl ri
  = if tracked (GetKind ri) then {[ GetKind ri := true ]} else ∅.
Proof.
  unfold capaMarks.
  destruct (tracked (GetKind ri)) eqn:Ht.
  - apply tracked_cases in Ht as [Hk|[Hk|[Hk|Hk]]]; rewrite Hk.
    + by rewrite (capaEdit_controlPlane _ _ _ _ Hk).
    + rewrite capaEdit_machinePool; [done|intros ?; apply Hkeep|done].
    + by rewrite (capaEdit_managedMachinePool _ _ _ _ Hk).
    + by rewrite (capaEdit_cluster _ _ _ _ Hk).
  - unfold tracked in Ht. rewrite !orb_false_iff, !String.eqb_neq in Ht.
    destruct Ht as [[[? ?] ?] ?]. by rewrite capaEdit_other.
Qed.

Lemma marks_found fl ri s kind :
  wasFound (capaMarks SetMPConfiguration fl ri ∪ s) kind
  = wasFound s kind || (tracked kind && String.eqb (GetKind ri) kind).
Proof.
  rewrite marks_explicit. unfold wasFound.
  destruct (String.eqb_spec (GetKind ri) kind) as [<-|Hne].
  - destruct (tracked (GetKind ri)).
    + rewrite (lookup_union_Some_l _ _ _ true) by apply lookup_singleton_eq.
      by rewrite orb_true_r.
    + by rewrite (left_id_L ∅ (∪)), orb_false_r.
  - rewrite andb_false_r, orb_false_r.
    destruct (tracked (GetKind ri)).
    + by rewrite lookup_union_r by by apply lookup_singleton_ne.
    + by rewrite (left_id_L ∅ (∪)).
Qed.

Lemma seen_found fl docs : ∀ s kind,
  wasFound (capaSeen Marshal SetMPConfiguration fl docs ∪ s) kind
  = wasFound s kind
    || (tracked kind
        && hasKind kind (processed (capaContent SetMPConfiguration fl) Marshal docs)).
Proof.
  induction docs as [|ri rest IH]; intros s kind; simpl.
  - by rewrite (left_id_L ∅ (∪)), andb_false_r, orb_false_r.
  - unfold passes.
    destruct (let? ri' := capaContent SetMPConfiguration fl ri in Marshal ri');
      simpl.
    + rewrite <- (assoc_L (∪)), IH, marks_found.
      destruct (wasFound s kind), (tracked kind), (String.eqb (GetKind ri) kind);
        done.
    + by rewrite marks_found, orb_false_r.
    + by rewrite marks_found, orb_false_r.
Qed.

(** X10. What [isFound] holds after a run: an entry is true exactly when
    it was true before, or its kind is one of the four the closure records
    and a document of that kind is among those the closure got to (all
    documents up to and including the first that fails).  Documents after
    a failure and kinds outside the four leave no trace. *)
Theorem found_after_run fl io s input docs stop kind :
  ReadAll io = Ok input → Decode input = (docs, stop) →
  wasFound (snd (capaRunE Decode Marshal SetMPConfiguration fl io s)) kind
  = wasFound s kind
    || (tracked kind
        && hasKind kind (processed (capaContent SetMPConfiguration fl) Marshal docs)).
Proof.
  intros Hin Hdec. rewrite (capaRunE_stream _ _ _ _ _ _ _ _ _ Hin Hdec). cbn [snd].
  apply seen_found.
Qed.

Lemma fresh_requirements fl docs :
  forallb (passes (capaContent SetMPConfiguration fl) Marshal) docs = true →
  requirementsMet
    (helperOf fl (capaSeen Marshal SetMPConfiguration fl docs ∪ NewCmdCAPA))
  ↔ kindsPresent fl docs.
Proof.
  intros Hall. unfold requirementsMet, kindsPresent. simpl.
  rewrite !seen_found, (processed_all _ _ Hall). unfold NewCmdCAPA, wasFound.
  by rewrite !lookup_empty.
Qed.

(** X11. When a run of capa on a fresh command succeeds: given that the
    input is read and decoded without error and standard output takes the
    bytes, the run returns no error exactly when every document is edited
    and encoded, the bounds are ordered, and the stream holds a document
    of each kind a requested intent needs (a control plane for the CIDR or
    the control-plane role, a managed machine pool for the machine-pool
    role, a cluster for the control-plane role). *)
Theorem capa_succeeds_iff fl io input docs :
  ReadAll io = Ok input → Decode input = (docs, None) → WriteFault io = None →
  returned (fst (capaRunE Decode Marshal SetMPConfiguration fl io NewCmdCAPA)) = Ok tt
  ↔ forallb (passes (capaContent SetMPConfiguration fl) Marshal) docs = true
    ∧ kindsPresent fl docs.
Proof.
  intros Hin Hdec Hw. rewrite (capaRunE_stream _ _ _ _ _ _ _ _ _ Hin Hdec). cbn [fst].
  pose proof (render_passes (capaContent SetMPConfiguration fl) docs "") as Hp.
  destruct (render _ _ _ _) as [buf| |]; simpl in Hp.
  - rewrite <- Hp.
    pose proof (fresh_requirements fl docs (eq_sym Hp)) as Hreq.
    rewrite <- validation_None in Hreq.
    destruct (validation _) as [e|].
    + split; [done|]. intros [_ Hk]. by apply Hreq in Hk.
    + rewrite (deliver_no_fault _ _ Hw). split; [|done].
      intros _. split; [done|]. by apply Hreq.
  - rewrite <- Hp. split; [done|]. by intros [? _].
  - rewrite <- Hp. split; [done|]. by intros [? _].
Qed.

(** X12. Whether a run succeeds does not depend on the order of the
    documents: two inputs that decode to the same documents in another
    order both succeed or both fail. *)
Theorem success_order_independent fl io io' s input input' docs docs' :
  ReadAll io = Ok input → ReadAll io' = Ok input' →
  WriteFault io = WriteFault io' →
  Decode input = (docs, None) → Decode input' = (docs', None) →
  docs ≡ₚ docs' →
  is_ok (returned (fst (capaRunE Decode Marshal SetMPConfiguration fl io s)))
  = is_ok (returned (fst (capaRunE Decode Marshal SetMPConfiguration fl io' s))).
Proof.
  intros Hin Hin' Hw Hdec Hdec' Hperm.
  rewrite (capaRunE_stream _ _ _ _ _ _ _ _ _ Hin Hdec).
  rewrite (capaRunE_stream _ _ _ _ _ _ _ _ _ Hin' Hdec'). cbn [fst].
  pose proof (render_passes (capaContent SetMPConfiguration fl) docs "") as Hp.
  pose proof (render_passes (capaContent SetMPConfiguration fl) docs' "") as Hp'.
  rewrite <- (forallb_Permutation _ _ _ Hperm) in Hp'.
  destruct (render _ _ docs "") as [buf| |], (render _ _ docs' "") as [buf'| |];
    simpl in Hp, Hp'; try done; try congruence.
  assert (Hv : validation (helperOf fl (capaSeen Marshal SetMPConfiguration fl docs' ∪ s))
             = validation (helperOf fl (capaSeen Marshal SetMPConfiguration fl docs ∪ s))).
  { assert (Hall : forallb (passes (capaContent SetMPConfiguration fl) Marshal) docs
                   = true) by done.
    assert (Hall' : forallb (passes (capaContent SetMPConfiguration fl) Marshal) docs'
                    = true) by (by rewrite <- (forallb_Permutation _ _ _ Hperm)).
    apply validation_three_kinds; try done; simpl;
      rewrite !seen_found, (processed_all _ _ Hall), (processed_all _ _ Hall');
      unfold hasKind; by rewrite (existsb_Permutation _ _ _ Hperm). }
  rewrite Hv. clear Hv. destruct (validation _); [done|].
  unfold deliver, Stdout_Write. rewrite Hw.
  by destruct (WriteFault io') as [[n e]|].
Qed.

End Kinds.

(** X13. The error of a run is that of the first document that fails:
    when the documents before it are edited and encoded and the edit or
    the encoding of a document returns an error, the run returns that
    error and writes nothing, whatever follows in the stream. *)
Theorem first_failure_reported fl io s input pre ri post stop e :
  ReadAll io = Ok input → Decode input = (pre ++ ri :: post, stop) →
  (forallb (passes (capaContent SetMPConfiguration fl) Marshal) pre = true →
   (let? ri' := capaContent SetMPConfiguration fl ri in Marshal ri') = Err e →
   fst (capaRunE Decode Marshal SetMPConfiguration fl io s) = failWith (Err e))
  ∧ (forallb (passes capkContent Marshal) pre = true →
     (let? ri' := capkContent ri in Marshal ri') = Err e →
     capkRunE Decode Marshal io = failWith (Err e)).
Proof.
  intros Hin Hdec. split; intros Hpre He.
  - rewrite (capaRunE_stream _ _ _ _ _ _ _ _ _ Hin Hdec). cbn [fst].
    by rewrite (render_first_failure _ _ _ _ _ _ Hpre He).
  - rewrite (capkRunE_stream _ _ _ _ _ _ Hin Hdec).
    by rewrite (render_first_failure _ _ _ _ _ _ Hpre He).
Qed.

(** X14. The empty stream: when the input decodes to no document, capk
    hands the empty buffer to standard output, and capa leaves [isFound]
    as it was and lets [validation] decide on the flags and the kinds
    found before. *)
Theorem empty_stream fl io s input :
  ReadAll io = Ok input → Decode input = ([], None) →
  capkRunE Decode Marshal io = deliver io (Ok "")
  ∧ capaRunE Decode Marshal SetMPConfiguration fl io s
    = (match validation (helperOf fl s) with
       | Some e => failWith (Err e)
       | None => deliver io (Ok "")
       end, s).
Proof.
  intros Hin Hdec. split.
  - by rewrite (capkRunE_stream _ _ _ _ _ _ Hin Hdec).
  - rewrite (capaRunE_stream _ _ _ _ _ _ _ _ _ Hin Hdec). simpl.
    by rewrite (left_id_L ∅ (∪)).
Qed.

(** X15. A command that has run before accepts whatever a fresh command
    accepts: when a run on a fresh command returns no error, the same run
    on a command with any [isFound] map has the same outcome, the same
    bytes on standard output included. *)
Theorem used_command_accepts_more fl io s :
  returned (fst (capaRunE Decode Marshal SetMPConfiguration fl io NewCmdCAPA)) = Ok tt →
  fst (capaRunE Decode Marshal SetMPConfiguration fl io s)
  = fst (capaRunE Decode Marshal SetMPConfiguration fl io NewCmdCAPA).
Proof.
  destruct (ReadAll io) as [input| |] eqn:Hin.
  2,3: unfold capaRunE; by rewrite Hin.
  destruct (Decode input) as [docs stop] eqn:Hdec.
  rewrite !(capaRunE_stream _ _ _ _ _ _ _ _ _ Hin Hdec). cbn [fst].
  destruct (render _ _ _ _) as [buf| |]; [|done..].
  destruct stop as [e|]; [done|].
  destruct (validation (helperOf fl (_ ∪ NewCmdCAPA))) as [e|] eqn:Hv; [done|].
  intros _.
  assert (Hmore : ∀ kind,
    wasFound (capaSeen Marshal SetMPConfiguration fl docs ∪ NewCmdCAPA) kind = true →
    wasFound (capaSeen Marshal SetMPConfiguration fl docs ∪ s) kind = true).
  { intros kind. unfold wasFound, NewCmdCAPA. rewrite (right_id_L ∅ (∪)).
    destruct (capaSeen Marshal SetMPConfiguration fl docs !! kind) as [b|] eqn:Hb;
      [|done].
    simpl. intros ->. by rewrite (lookup_union_Some_l _ _ _ _ Hb). }
  by rewrite (validation_more fl _ _ Hmore Hv).
Qed.

(** X16. Documents no rule targets pass through unchanged, whatever the
    flags: in capa a document whose kind is none of the four recorded
    kinds, and a control plane when neither the CIDR nor the role is
    requested; in capk a document that is not a KubeVirt machine
    template. *)
Theorem untargeted_documents_unchanged fl ri :
  (tracked (GetKind ri) = false → capaContent SetMPConfiguration fl ri = Ok ri)
  ∧ (GetKind ri = awsManagedControlPlane →
     vpc_cidr fl = "" → managedcp_role fl = "" →
     capaContent SetMPConfiguration fl ri = Ok ri)
  ∧ (GetKind ri ≠ "KubevirtMachineTemplate" → capkContent ri = Ok ri).
Proof.
  split_and!.
  - unfold tracked. rewrite !orb_false_iff, !String.eqb_neq.
    intros [[[? ?] ?] ?]. by apply content_other.
  - intros Hk Hc Hr. rewrite (content_controlPlane _ _ _ Hk).
    unfold cpRules. by rewrite Hc, Hr.
  - intros Hk. unfold capkContent. by rewrite kind_neqb.
Qed.

End Passes.

(** ** The further properties at concrete inputs *)

Lemma edits_read_back_witness :
  (capaContent SetMPConfiguration_spec cidrAndControlPlaneRole controlPlaneDoc
   = Ok editedControlPlane
   ∧ (["spec"; "roleName"], VString "eks-controlplane")
       ∈ capaWrites cidrAndControlPlaneRole controlPlaneDoc
   ∧ getPath (VMap editedControlPlane) ["spec"; "roleName"]
     = Some (VString "eks-controlplane"))
  ∧ (capkContent templateDoc = Ok editedTemplate
     ∧ (checkStrategyPath, VString "none") ∈ capkWrites templateDoc
     ∧ getPath (VMap templateDoc) checkStrategyPath = Some (VString "ssh")
     ∧ getPath (VMap editedTemplate) checkStrategyPath = Some (VString "none")).
Proof.
  assert (H1 : capaContent SetMPConfiguration_spec cidrAndControlPlaneRole
                 controlPlaneDoc = Ok editedControlPlane) by reflexivity.
  assert (H2 : (["spec"; "roleName"], VString "eks-controlplane")
                 ∈ capaWrites cidrAndControlPlaneRole controlPlaneDoc)
    by (constructor 2; constructor 1).
  assert (H3 : capkContent templateDoc = Ok editedTemplate) by reflexivity.
  assert (H4 : (checkStrategyPath, VString "none") ∈ capkWrites templateDoc)
    by constructor 1.
  split.
  - split; [exact H1|]. split; [exact H2|].
    exact (proj1 (edits_read_back SetMPConfiguration_spec cidrAndControlPlaneRole
                    controlPlaneDoc editedControlPlane _ _) H1 H2).
  - split; [exact H3|]. split; [exact H4|]. split; [reflexivity|].
    exact (proj2 (edits_read_back SetMPConfiguration_spec defaultFlags
                    templateDoc editedTemplate _ _) H3 H4).
Defined.

Lemma edits_frame_witness :
  (GetKind annotatedCluster ≠ machinePool
   ∧ capaContent SetMPConfiguration_spec controlPlaneRoleOnly annotatedCluster
     = Ok editedCluster
   ∧ (∀ path, path ∈ capaTargets controlPlaneRoleOnly annotatedCluster →
              diverges path ["metadata"; "annotations"; "team"] = true)
   ∧ getPath (VMap editedCluster) ["metadata"; "annotations"; "team"]
     = getPath (VMap annotatedCluster) ["metadata"; "annotations"; "team"])
  ∧ (capkContent templateDoc = Ok editedTemplate
     ∧ diverges checkStrategyPath
         ["spec"; "template"; "spec"; "virtualMachineTemplate"] = true
     ∧ getPath (VMap editedTemplate)
         ["spec"; "template"; "spec"; "virtualMachineTemplate"]
       = getPath (VMap templateDoc)
           ["spec"; "template"; "spec"; "virtualMachineTemplate"]).
Proof.
  assert (H0 : GetKind annotatedCluster ≠ machinePool) by discriminate.
  assert (H1 : capaContent SetMPConfiguration_spec controlPlaneRoleOnly
                 annotatedCluster = Ok editedCluster) by reflexivity.
  assert (H2 : ∀ path, path ∈ capaTargets controlPlaneRoleOnly annotatedCluster →
                 diverges path ["metadata"; "annotations"; "team"] = true).
  { intros path Hin.
    change (capaTargets controlPlaneRoleOnly annotatedCluster)
      with [["metadata"; "annotations"; controlplaneRoleAnnotation]] in Hin.
    apply list_elem_of_singleton in Hin. rewrite Hin. reflexivity. }
  assert (H3 : capkContent templateDoc = Ok editedTemplate) by reflexivity.
  split.
  - split; [exact H0|]. split; [exact H1|]. split; [exact H2|].
    exact (proj1 (edits_frame SetMPConfiguration_spec controlPlaneRoleOnly
                    annotatedCluster editedCluster _) H0 H1 H2).
  - split; [exact H3|]. split; [reflexivity|].
    exact (proj2 (edits_frame SetMPConfiguration_spec defaultFlags
                    templateDoc editedTemplate
                    ["spec"; "template"; "spec"; "virtualMachineTemplate"])
             H3 eq_refl).
Defined.

Lemma edits_fail_only_when_blocked_witness :
  (GetKind clusterScalarMetadata ≠ machinePool
   ∧ capaContent SetMPConfiguration_spec defaultFlags clusterScalarMetadata
     = Err (NotAMap ["metadata"])
   ∧ capaContent SetMPConfiguration_spec defaultFlags clusterScalarMetadata ≠ Panic
   ∧ ∃ path upto,
       path ∈ capaTargets defaultFlags clusterScalarMetadata
       ∧ blocked clusterScalarMetadata path upto
       ∧ NotAMap ["metadata"] = NotAMap upto)
  ∧ (capkContent templateScalar = Err (NotAMap ["spec"; "template"])
     ∧ GetKind templateScalar = "KubevirtMachineTemplate"
     ∧ ∃ upto, blocked templateScalar checkStrategyPath upto
               ∧ NotAMap ["spec"; "template"] = NotAMap upto).
Proof.
  assert (H0 : GetKind clusterScalarMetadata ≠ machinePool) by discriminate.
  assert (H1 : capaContent SetMPConfiguration_spec defaultFlags clusterScalarMetadata
               = Err (NotAMap ["metadata"])) by reflexivity.
  assert (H2 : capkContent templateScalar = Err (NotAMap ["spec"; "template"]))
    by reflexivity.
  destruct (edits_fail_only_when_blocked SetMPConfiguration_spec defaultFlags
              clusterScalarMetadata) as [Hcapa _].
  destruct (edits_fail_only_when_blocked SetMPConfiguration_spec defaultFlags
              templateScalar) as [_ [_ Hcapk]].
  destruct (Hcapa H0) as [Hnp Herr].
  split.
  - split; [exact H0|]. split; [exact H1|]. split; [exact Hnp|].
    exact (Herr _ H1).
  - split; [exact H2|]. exact (Hcapk _ H2).
Defined.

Lemma edits_idempotent_witness :
  (GetKind controlPlaneDoc ≠ machinePool
   ∧ capaContent SetMPConfiguration_spec cidrAndControlPlaneRole controlPlaneDoc
     = Ok editedControlPlane
   ∧ capaContent SetMPConfiguration_spec cidrAndControlPlaneRole editedControlPlane
     = Ok editedControlPlane)
  ∧ (capkContent templateDoc = Ok editedTemplate
     ∧ capkContent editedTemplate = Ok editedTemplate).
Proof.
  assert (H0 : GetKind controlPlaneDoc ≠ machinePool) by discriminate.
  assert (H1 : capaContent SetMPConfiguration_spec cidrAndControlPlaneRole
                 controlPlaneDoc = Ok editedControlPlane) by reflexivity.
  assert (H3 : capkContent templateDoc = Ok editedTemplate) by reflexivity.
  split.
  - split; [exact H0|]. split; [exact H1|].
    exact (proj1 (edits_idempotent SetMPConfiguration_spec cidrAndControlPlaneRole
                    controlPlaneDoc editedControlPlane) H0 H1).
  - split; [exact H3|].
    exact (proj2 (edits_idempotent SetMPConfiguration_spec defaultFlags
                    templateDoc editedTemplate) H3).
Defined.

Lemma edits_keep_kind_witness :
  keepsKind SetMPConfiguration_spec
  ∧ capaContent SetMPConfiguration_spec cidrAndControlPlaneRole controlPlaneDoc
    = Ok editedControlPlane
  ∧ GetKind editedControlPlane = GetKind controlPlaneDoc
  ∧ capkContent templateDoc = Ok editedTemplate
  ∧ GetKind editedTemplate = GetKind templateDoc.
Proof.
  assert (H1 : capaContent SetMPConfiguration_spec cidrAndControlPlaneRole
                 controlPlaneDoc = Ok editedControlPlane) by reflexivity.
  assert (H3 : capkContent templateDoc = Ok editedTemplate) by reflexivity.
  split; [exact SetMPConfiguration_spec_keepsKind|]. split; [exact H1|].
  split.
  - exact (proj1 (edits_keep_kind SetMPConfiguration_spec cidrAndControlPlaneRole
                    controlPlaneDoc editedControlPlane)
             SetMPConfiguration_spec_keepsKind H1).
  - split; [exact H3|].
    exact (proj2 (edits_keep_kind SetMPConfiguration_spec defaultFlags
                    templateDoc editedTemplate) H3).
Defined.

Lemma rules_last_write_wins_witness :
  (managedCPCIDR controlPlaneDoc "10.0.0.0/16"
   = Ok (unwrap (managedCPCIDR controlPlaneDoc "10.0.0.0/16"))
   ∧ managedCPCIDR (unwrap (managedCPCIDR controlPlaneDoc "10.0.0.0/16")) "172.16.0.0/12"
     = managedCPCIDR controlPlaneDoc "172.16.0.0/12")
  ∧ (managedMPScaling machinePoolDoc 1 6
     = Ok (unwrap (managedMPScaling machinePoolDoc 1 6))
     ∧ managedMPScaling (unwrap (managedMPScaling machinePoolDoc 1 6)) 2 5
       = managedMPScaling machinePoolDoc 2 5)
  ∧ (clusterAnnotations annotatedCluster ""
     = Ok (unwrap (clusterAnnotations annotatedCluster ""))
     ∧ clusterAnnotations (unwrap (clusterAnnotations annotatedCluster ""))
         "eks-controlplane"
       = clusterAnnotations annotatedCluster "eks-controlplane").
Proof.
  assert (H1 : managedCPCIDR controlPlaneDoc "10.0.0.0/16"
               = Ok (unwrap (managedCPCIDR controlPlaneDoc "10.0.0.0/16")))
    by reflexivity.
  assert (H2 : managedMPScaling machinePoolDoc 1 6
               = Ok (unwrap (managedMPScaling machinePoolDoc 1 6))) by reflexivity.
  assert (H3 : clusterAnnotations annotatedCluster ""
               = Ok (unwrap (clusterAnnotations annotatedCluster ""))) by reflexivity.
  split; [|split].
  - split; [exact H1|].
    exact (proj1 (rules_last_write_wins controlPlaneDoc _) _ _ H1).
  - split; [exact H2|].
    exact (proj1 (proj2 (proj2 (rules_last_write_wins machinePoolDoc _))) _ _ _ _ H2).
  - split; [exact H3|].
    exact (proj2 (proj2 (proj2 (proj2 (rules_last_write_wins annotatedCluster _))))
             _ _ H3).
Defined.

Lemma validation_reads_three_kinds_witness :
  wasFound (<[machinePool := true]> ∅) awsManagedControlPlane
    = wasFound ∅ awsManagedControlPlane
  ∧ wasFound (<[machinePool := true]> ∅) awsManagedMachinePool
    = wasFound ∅ awsManagedMachinePool
  ∧ wasFound (<[machinePool := true]> ∅) cluster = wasFound ∅ cluster
  ∧ validation (helperOf cidrAndPoolRole (<[machinePool := true]> ∅))
    = validation (helperOf cidrAndPoolRole ∅).
Proof.
  split; [reflexivity|]. split; [reflexivity|]. split; [reflexivity|].
  exact (validation_reads_three_kinds cidrAndPoolRole ∅ (<[machinePool := true]> ∅)
           eq_refl eq_refl eq_refl).
Defined.

Lemma validation_monotone_witness :
  (∀ kind, wasFound {[ awsManagedControlPlane := true ]} kind = true →
           wasFound (<[cluster := true]> {[ awsManagedControlPlane := true ]}) kind
           = true)
  ∧ validation (helperOf cidrFlags {[ awsManagedControlPlane := true ]}) = None
  ∧ validation (helperOf cidrFlags
                  (<[cluster := true]> {[ awsManagedControlPlane := true ]})) = None.
Proof.
  assert (Hmore : ∀ kind,
    wasFound {[ awsManagedControlPlane := true ]} kind = true →
    wasFound (<[cluster := true]> {[ awsManagedControlPlane := true ]}) kind = true).
  { intros kind. unfold wasFound.
    destruct (decide (kind = cluster)) as [->|Hne].
    - intros _. by rewrite lookup_insert_eq.
    - by rewrite lookup_insert_ne. }
  split; [exact Hmore|]. split; [reflexivity|].
  exact (validation_monotone cidrFlags _ _ Hmore eq_refl).
Defined.

Lemma found_after_run_witness :
  keepsKind SetMPConfiguration_spec
  ∧ ReadAll (stdinOf "broken-cluster.yaml") = Ok "broken-cluster.yaml"
  ∧ tableDecode moreBundles "broken-cluster.yaml"
    = ([doc "Service"; clusterScalarMetadata; doc awsManagedControlPlane], None)
  ∧ processed (capaContent SetMPConfiguration_spec defaultFlags) kindMarshal
      [doc "Service"; clusterScalarMetadata; doc awsManagedControlPlane]
    = [doc "Service"; clusterScalarMetadata]
  ∧ wasFound (snd (capaOver defaultFlags "broken-cluster.yaml" ∅)) cluster
    = wasFound ∅ cluster
      || (tracked cluster
          && hasKind cluster
               (processed (capaContent SetMPConfiguration_spec defaultFlags) kindMarshal
                  [doc "Service"; clusterScalarMetadata; doc awsManagedControlPlane]))
  ∧ wasFound (snd (capaOver defaultFlags "broken-cluster.yaml" ∅)) cluster = true
  ∧ wasFound (snd (capaOver defaultFlags "broken-cluster.yaml" ∅))
      awsManagedControlPlane = false.
Proof.
  split; [exact SetMPConfiguration_spec_keepsKind|].
  split; [reflexivity|]. split; [reflexivity|]. split; [reflexivity|].
  split; [|split; reflexivity].
  exact (found_after_run (tableDecode moreBundles) kindMarshal SetMPConfiguration_spec
           SetMPConfiguration_spec_keepsKind defaultFlags
           (stdinOf "broken-cluster.yaml") ∅ "broken-cluster.yaml" _ None cluster
           eq_refl eq_refl).
Defined.

Lemma capa_succeeds_iff_witness :
  keepsKind SetMPConfiguration_spec
  ∧ ReadAll (stdinOf "eks.yaml") = Ok "eks.yaml"
  ∧ tableDecode moreBundles "eks.yaml"
    = ([doc awsManagedControlPlane; doc "Service"; doc cluster], None)
  ∧ WriteFault (stdinOf "eks.yaml") = None
  ∧ forallb (passes (capaContent SetMPConfiguration_spec cidrAndControlPlaneRole)
               kindMarshal)
      [doc awsManagedControlPlane; doc "Service"; doc cluster] = true
  ∧ kindsPresent cidrAndControlPlaneRole
      [doc awsManagedControlPlane; doc "Service"; doc cluster]
  ∧ returned (fst (capaOver cidrAndControlPlaneRole "eks.yaml" NewCmdCAPA)) = Ok tt.
Proof.
  assert (Hk : kindsPresent cidrAndControlPlaneRole
                 [doc awsManagedControlPlane; doc "Service"; doc cluster]).
  { unfold kindsPresent.
    split; [left; reflexivity|]. split; [discriminate|].
    split; [left; reflexivity|right; reflexivity]. }
  split; [exact SetMPConfiguration_spec_keepsKind|].
  split; [reflexivity|]. split; [reflexivity|]. split; [reflexivity|].
  split; [reflexivity|]. split; [exact Hk|].
  exact (proj2 (capa_succeeds_iff (tableDecode moreBundles) kindMarshal
                  SetMPConfiguration_spec SetMPConfiguration_spec_keepsKind
                  cidrAndControlPlaneRole (stdinOf "eks.yaml") "eks.yaml" _
                  eq_refl eq_refl eq_refl)
           (conj eq_refl Hk)).
Defined.

Lemma success_order_independent_witness :
  keepsKind SetMPConfiguration_spec
  ∧ ReadAll (stdinOf "eks.yaml") = Ok "eks.yaml"
  ∧ ReadAll (stdinOf "eks-reordered.yaml") = Ok "eks-reordered.yaml"
  ∧ WriteFault (stdinOf "eks.yaml") = WriteFault (stdinOf "eks-reordered.yaml")
  ∧ tableDecode moreBundles "eks.yaml"
    = ([doc awsManagedControlPlane; doc "Service"; doc cluster], None)
  ∧ tableDecode moreBundles "eks-reordered.yaml"
    = ([doc cluster; doc awsManagedControlPlane; doc "Service"], None)
  ∧ [doc awsManagedControlPlane; doc "Service"; doc cluster]
    ≡ₚ [doc cluster; doc awsManagedControlPlane; doc "Service"]
  ∧ is_ok (returned (fst (capaOver cidrAndControlPlaneRole "eks.yaml" NewCmdCAPA)))
    = is_ok (returned (fst (capaOver cidrAndControlPlaneRole "eks-reordered.yaml"
                              NewCmdCAPA))).
Proof.
  assert (Hperm : [doc awsManagedControlPlane; doc "Service"; doc cluster]
                  ≡ₚ [doc cluster; doc awsManagedControlPlane; doc "Service"]).
  { symmetry.
    exact (Permutation_cons_append [doc awsManagedControlPlane; doc "Service"]
             (doc cluster)). }
  split; [exact SetMPConfiguration_spec_keepsKind|].
  split; [reflexivity|]. split; [reflexivity|]. split; [reflexivity|].
  split; [reflexivity|]. split; [reflexivity|]. split; [exact Hperm|].
  exact (success_order_independent (tableDecode moreBundles) kindMarshal
           SetMPConfiguration_spec SetMPConfiguration_spec_keepsKind
           cidrAndControlPlaneRole (stdinOf "eks.yaml") (stdinOf "eks-reordered.yaml")
           NewCmdCAPA "eks.yaml" "eks-reordered.yaml" _ _
           eq_refl eq_refl eq_refl eq_refl eq_refl Hperm).
Defined.

Lemma first_failure_reported_witness :
  ReadAll (stdinOf "broken-cluster.yaml") = Ok "broken-cluster.yaml"
  ∧ tableDecode moreBundles "broken-cluster.yaml"
    = ([doc "Service"] ++ clusterScalarMetadata :: [doc awsManagedControlPlane], None)
  ∧ forallb (passes (capaContent SetMPConfiguration_spec defaultFlags) kindMarshal)
      [doc "Service"] = true
  ∧ (let? ri' := capaContent SetMPConfiguration_spec defaultFlags clusterScalarMetadata
      in kindMarshal ri') = Err (NotAMap ["metadata"])
  ∧ fst (capaOver defaultFlags "broken-cluster.yaml" NewCmdCAPA)
    = failWith (Err (NotAMap ["metadata"]))
  ∧ ReadAll (stdinOf "broken-template.yaml") = Ok "broken-template.yaml"
  ∧ tableDecode moreBundles "broken-template.yaml"
    = ([doc "Service"] ++ templateScalar :: [templateDoc], None)
  ∧ forallb (passes capkContent kindMarshal) [doc "Service"] = true
  ∧ (let? ri' := capkContent templateScalar in kindMarshal ri')
    = Err (NotAMap ["spec"; "template"])
  ∧ capkOver "broken-template.yaml" = failWith (Err (NotAMap ["spec"; "template"])).
Proof.
  split; [reflexivity|]. split; [reflexivity|]. split; [reflexivity|].
  split; [reflexivity|].
  split.
  { exact (proj1 (first_failure_reported (tableDecode moreBundles) kindMarshal
                    SetMPConfiguration_spec defaultFlags
                    (stdinOf "broken-cluster.yaml") NewCmdCAPA "broken-cluster.yaml"
                    [doc "Service"] clusterScalarMetadata [doc awsManagedControlPlane]
                    None (NotAMap ["metadata"]) eq_refl eq_refl)
             eq_refl eq_refl). }
  split; [reflexivity|]. split; [reflexivity|]. split; [reflexivity|].
  split; [reflexivity|].
  exact (proj2 (first_failure_reported (tableDecode moreBundles) kindMarshal
                  SetMPConfiguration_spec defaultFlags
                  (stdinOf "broken-template.yaml") NewCmdCAPA "broken-template.yaml"
                  [doc "Service"] templateScalar [templateDoc]
                  None (NotAMap ["spec"; "template"]) eq_refl eq_refl)
           eq_refl eq_refl).
Defined.

Lemma empty_stream_witness :
  ReadAll (stdinOf "empty.yaml") = Ok "empty.yaml"
  ∧ tableDecode moreBundles "empty.yaml" = ([], None)
  ∧ capkOver "empty.yaml" = deliver (stdinOf "empty.yaml") (Ok "")
  ∧ capaOver cidrFlags "empty.yaml" {[ awsManagedControlPlane := true ]}
    = (match validation (helperOf cidrFlags {[ awsManagedControlPlane := true ]}) with
       | Some e => failWith (Err e)
       | None => deliver (stdinOf "empty.yaml") (Ok "")
       end, {[ awsManagedControlPlane := true ]}).
Proof.
  split; [reflexivity|]. split; [reflexivity|].
  exact (empty_stream (tableDecode moreBundles) kindMarshal SetMPConfiguration_spec
           cidrFlags (stdinOf "empty.yaml") {[ awsManagedControlPlane := true ]}
           "empty.yaml" eq_refl eq_refl).
Defined.

Lemma used_command_accepts_more_witness :
  returned (fst (capaOver cidrAndControlPlaneRole "eks.yaml" NewCmdCAPA)) = Ok tt
  ∧ fst (capaOver cidrAndControlPlaneRole "eks.yaml" {[ machinePool := true ]})
    = fst (capaOver cidrAndControlPlaneRole "eks.yaml" NewCmdCAPA).
Proof.
  split; [reflexivity|].
  exact (used_command_accepts_more (tableDecode moreBundles) kindMarshal
           SetMPConfiguration_spec cidrAndControlPlaneRole (stdinOf "eks.yaml")
           {[ machinePool := true ]} eq_refl).
Defined.

Lemma untargeted_documents_unchanged_witness :
  (tracked (GetKind (doc "Service")) = false
   ∧ capaContent SetMPConfiguration_spec cidrAndControlPlaneRole (doc "Service")
     = Ok (doc "Service"))
  ∧ (GetKind controlPlaneDoc = awsManagedControlPlane
     ∧ vpc_cidr poolRoleOnly = "" ∧ managedcp_role poolRoleOnly = ""
     ∧ capaContent SetMPConfiguration_spec poolRoleOnly controlPlaneDoc
       = Ok controlPlaneDoc)
  ∧ (GetKind (doc cluster) ≠ "KubevirtMachineTemplate"
     ∧ capkContent (doc cluster) = Ok (doc cluster)).
Proof.
  assert (H3 : GetKind (doc cluster) ≠ "KubevirtMachineTemplate") by discriminate.
  split; [|split].
  - split; [reflexivity|].
    exact (proj1 (untargeted_documents_unchanged SetMPConfiguration_spec
                    cidrAndControlPlaneRole (doc "Service")) eq_refl).
  - split; [reflexivity|]. split; [reflexivity|]. split; [reflexivity|].
    exact (proj1 (proj2 (untargeted_documents_unchanged SetMPConfiguration_spec
                           poolRoleOnly controlPlaneDoc)) eq_refl eq_refl eq_refl).
  - split; [exact H3|].
    exact (proj2 (proj2 (untargeted_documents_unchanged SetMPConfiguration_spec
                           defaultFlags (doc cluster))) H3).
Defined.

(** ** Runs without string intents *)

Section NoIntent.

Variable Decode : string -> list Obj * option error.
Variable Marshal : Obj -> Result string.
Variable SetMPConfiguration : Obj -> Z -> Z -> Result Obj.

(** X17. Without a CIDR and without roles, and with ordered bounds,
    [validation] never rejects a run, whatever the stream holds and
    whatever was found before: the outcome is that of the pass over the
    documents followed by the write. *)
Theorem no_intent_never_rejected fl io s input docs :
  vpc_cidr fl = "" → managedcp_role fl = "" → managedmp_role fl = "" →
  min_node_count fl ≤ max_node_count fl →
  ReadAll io = Ok input → Decode input = (docs, None) →
  fst (capaRunE Decode Marshal SetMPConfiguration fl io s)
  = deliver io (render (capaContent SetMPConfiguration fl) Marshal docs "").
Proof.
  intros Hc Hcp Hmp Hle Hin Hdec.
  rewrite (capaRunE_stream _ _ _ _ _ _ _ _ _ Hin Hdec). cbn [fst].
  destruct (render _ _ _ _) as [buf| |]; [|done..].
  assert (Hv : validation
                 (helperOf fl (capaSeen Marshal SetMPConfiguration fl docs ∪ s))
               = None).
  { apply validation_None. unfold requirementsMet. simpl.
    split_and!; [by right|done|by left|by left]. }
  by rewrite Hv.
Qed.

End NoIntent.

Lemma no_intent_never_rejected_witness :
  vpc_cidr scenarioFlags = "" ∧ managedcp_role scenarioFlags = ""
  ∧ managedmp_role scenarioFlags = ""
  ∧ min_node_count scenarioFlags ≤ max_node_count scenarioFlags
  ∧ ReadAll (stdinOf "eks.yaml") = Ok "eks.yaml"
  ∧ tableDecode moreBundles "eks.yaml"
    = ([doc awsManagedControlPlane; doc "Service"; doc cluster], None)
  ∧ fst (capaOver scenarioFlags "eks.yaml" NewCmdCAPA)
    = deliver (stdinOf "eks.yaml")
        (render (capaContent SetMPConfiguration_spec scenarioFlags) kindMarshal
           [doc awsManagedControlPlane; doc "Service"; doc cluster] "").
Proof.
  assert (Hle : min_node_count scenarioFlags ≤ max_node_count scenarioFlags)
    by discriminate.
  split; [reflexivity|]. split; [reflexivity|]. split; [reflexivity|].
  split; [exact Hle|]. split; [reflexivity|]. split; [reflexivity|].
  exact (no_intent_never_rejected (tableDecode moreBundles) kindMarshal
           SetMPConfiguration_spec scenarioFlags (stdinOf "eks.yaml") NewCmdCAPA
           "eks.yaml" _ eq_refl eq_refl eq_refl Hle eq_refl eq_refl).
Defined.
